(** * Leukemia detector backend: the prediction request handler of [app.py]

    A shallow embedding of the Flask application [src/app.py] and the
    properties of its natural-language specification.

    The handler talks to four external collaborators: werkzeug
    ([secure_filename], [FileStorage.save]), the operating system
    ([os.remove]), the TensorFlow Lite runtime (interpreter construction,
    image decoding and preprocessing, invocation) and numpy ([argmax]).
    The runtime is a parameter of the development (record [Runtime]); the
    upload directory is a finite map from paths to file contents; every
    external effect is recorded in an event log, so that statements such as
    "no model is loaded" or "the file is removed before the response" can be
    read off the final world.  Python exceptions are an explicit outcome.

    [f.save] raises when the path cannot be opened for writing: always
    when it ends in a slash, which names a directory (the upload folder
    itself when the sanitized name is empty), and otherwise when the
    operating system refuses the path.

    What is idealized: storage holds plain files only and removing a file
    that has just been written succeeds (concurrent requests are not
    modelled); scores are compared by a boolean [<=] with no unordered value
    such as NaN; the output tensor is two-dimensional. *)

From Stdlib Require Import Ascii String List ZArith Bool Lia.
From stdpp Require Import gmap strings.

Local Open Scope string_scope.
Local Open Scope list_scope.

(** ** Values exchanged with the client *)

Abbreviation bytes := (list Byte.byte).

(** A werkzeug [FileStorage]: the client-supplied name and the content. *)
Record FileStorage := mkFile { filename : string; stream : bytes }.

(** [request.files] and [request.form] are multi-dicts: ordered lists of
    (field name, value) pairs in which a field name may repeat. *)
Record Request := mkRequest {
  req_files : list (string * FileStorage);
  req_form : list (string * string)
}.

(** What [jsonify] is applied to: strings, lists and dicts with string keys
    (a dict keeps the order in which its keys were written). *)
Inductive json :=
| JString (s : string)
| JArray (items : list json)
| JObject (fields : list (string * json)).

(** The pair [(jsonify(body), status)] a view function returns. *)
Record Response := mkResponse { body : json; status : nat }.

(** ** Exceptions, outcomes and the world *)

Inductive exn :=
| ValueError (msg : string)
| IndexError (msg : string)
| FileNotFoundError (path : string)
| OSError (path : string)                 (* IsADirectoryError and the like *)
| InterpreterError (model_path : string).

Inductive outcome (A : Type) :=
| Returned (a : A)
| Raised (e : exn).
Arguments Returned {A} a.
Arguments Raised {A} e.

(** The effects of a request that are visible outside the handler. *)
Inductive event :=
| EvLoad (model_path : string)
| EvSave (path : string)
| EvRemove (path : string).

Record World := mkWorld {
  fs : gmap string bytes;      (* the files on storage, by path *)
  log : list event             (* the effects so far, oldest first *)
}.

(** A computation of the handler: it reads and writes the world and either
    returns or raises. *)
Definition M (A : Type) : Type := World -> outcome A * World.

Definition ret {A} (a : A) : M A := fun w => (Returned a, w).
Definition raise {A} (e : exn) : M A := fun w => (Raised e, w).
Definition bind {A B} (c : M A) (k : A -> M B) : M B :=
  fun w => match c w with
           | (Returned a, w') => k a w'
           | (Raised e, w') => (Raised e, w')
           end.
Definition lift {A} (o : outcome A) : M A := fun w => (o, w).
Definition emit (e : event) : M unit :=
  fun w => (Returned tt, mkWorld (fs w) (log w ++ [e])).

Declare Scope handler_scope.
Delimit Scope handler_scope with handler.
Notation "'let!' x ':=' c 'in' k" := (bind c (fun x => k))
  (at level 10, x name, c at level 100, k at level 200) : handler_scope.
Notation "'do!' c 'in' k" := (bind c (fun _ => k))
  (at level 10, c at level 100, k at level 200) : handler_scope.

(** ** Constants of the module *)

(** [class_labels] (line 14). *)
Definition class_labels : list string :=
  ["EarlyPreB"; "PreB"; "ProB"; "Benign"].

(** [MODEL_PATHS] (lines 23-28), a dict in insertion order. *)
Definition MODEL_PATHS : list (string * string) :=
  [("EfficientB0", "models/EfficientB0.tflite");
   ("EfficientNetB0", "models/EfficientNetB0.tflite");
   ("MobileNetV2", "models/MobileNetV2.tflite");
   ("NasNetMobile", "models/NasNetMobile.tflite")].

(** ** Python and library primitives *)

(** [d.get(key)] on a dict with string keys. *)
Fixpoint dict_get {V} (d : list (string * V)) (key : string) : option V :=
  match d with
  | [] => None
  | (k, v) :: rest => if String.eqb k key then Some v else dict_get rest key
  end.

(** [key in d] for a multi-dict or a dict. *)
Definition dict_contains {V} (d : list (string * V)) (key : string) : bool :=
  existsb (fun kv => String.eqb (fst kv) key) d.

(** [d.getlist(key)] on a multi-dict: every value of the field, in order. *)
Definition getlist {V} (d : list (string * V)) (key : string) : list V :=
  map snd (List.filter (fun kv => String.eqb (fst kv) key) d).

(** [request.form.get('model')] may be [None]; [None] is a key of no dict
    whose keys are strings. *)
Definition opt_get {V} (d : list (string * V)) (key : option string) : option V :=
  match key with
  | Some k => dict_get d k
  | None => None
  end.

Definition opt_contains {V} (d : list (string * V)) (key : option string) : bool :=
  match key with
  | Some k => dict_contains d k
  | None => false
  end.


(** [s.startswith('/')] and [s.endswith('/')]. *)
Definition starts_with_slash (s : string) : bool :=
  match s with
  | String c _ => Ascii.eqb c "/"%char
  | EmptyString => false
  end.

Fixpoint ends_with_slash (s : string) : bool :=
  match s with
  | EmptyString => false
  | String c EmptyString => Ascii.eqb c "/"%char
  | String _ rest => ends_with_slash rest
  end.

(** [os.path.join(a, b)] (posixpath, two arguments). *)
Definition path_join (a b : string) : string :=
  if starts_with_slash b then b
  else if (String.eqb a "" || ends_with_slash a)%bool then a ++ b
  else a ++ "/" ++ b.

(** [l[i]] on a Python list with a non-negative index. *)
Definition list_getitem (l : list string) (i : nat) : outcome string :=
  match nth_error l i with
  | Some x => Returned x
  | None => Raised (IndexError "list index out of range")
  end.

(** numpy's arg-max of one row: a left-to-right scan that keeps the current
    maximum [mp] and its position [max_ind], and moves on to entry [i] only
    when that entry is not [<=] the current maximum. *)
Fixpoint argmax_scan {A} (le : A -> A -> bool) (row : list A)
    (i : nat) (mp : A) (max_ind : nat) : nat :=
  match row with
  | [] => max_ind
  | x :: rest =>
      if le x mp then argmax_scan le rest (S i) mp max_ind
      else argmax_scan le rest (S i) x i
  end.

Definition np_argmax {A} (le : A -> A -> bool) (row : list A) : outcome nat :=
  match row with
  | [] => Raised (ValueError "attempt to get argmax of an empty sequence")
  | x :: rest => Returned (argmax_scan le rest 1 x 0)
  end.

(** A two-dimensional array: its rows when it has some, and its number of
    columns when it has none (shape [(0, columns)]). *)
Inductive array2 (A : Type) :=
| Batch (row : list A) (rows : list (list A))
| NoRows (columns : nat).
Arguments Batch {A} row rows.
Arguments NoRows {A} columns.

(** The arg-max of each row of a list of rows; a row without entries
    raises. *)
Fixpoint argmax_rows {A} (le : A -> A -> bool) (rows : list (list A))
    : outcome (list nat) :=
  match rows with
  | [] => Returned []
  | row :: rows =>
      match np_argmax le row with
      | Raised e => Raised e
      | Returned i =>
          match argmax_rows le rows with
          | Raised e => Raised e
          | Returned idxs => Returned (i :: idxs)
          end
      end
  end.

(** [np.argmax(preds, axis=1)]: one position per row.  The reduced axis is
    checked first, so an array without columns raises even when it has no
    row; an array without rows but with columns gives no position. *)
Definition np_argmax_axis1 {A} (le : A -> A -> bool) (preds : array2 A)
    : outcome (list nat) :=
  match preds with
  | Batch row rows => argmax_rows le (row :: rows)
  | NoRows columns =>
      if (columns =? 0)%nat
      then Raised (ValueError "attempt to get argmax of an empty sequence")
      else Returned []
  end.

(** [a[0]] on a one-dimensional array. *)
Definition array_getitem0 (a : list nat) : outcome nat :=
  match a with
  | i :: _ => Returned i
  | [] => Raised (IndexError "index 0 is out of bounds for axis 0 with size 0")
  end.

(** ** The external collaborators *)

(** Everything the handler calls that lives outside [app.py].  A call that
    raises is a [None]; the interpreter is a mutable object, so invoking it
    returns its next state next to the output tensor.  [can_write] tells
    the paths the operating system lets [open(path, "wb")] succeed on. *)
Record Runtime := mkRuntime {
  app_dir : string;                       (* os.path.dirname(__file__) *)
  secure_filename : string -> string;     (* werkzeug.utils.secure_filename *)
  interp : Type;                          (* state of a tf.lite.Interpreter *)
  tensor : Type;                          (* a preprocessed input batch *)
  score : Type;                           (* an entry of the output tensor *)
  score_le : score -> score -> bool;      (* [<=] on scores *)
  (* tf.lite.Interpreter(model_path=...) and allocate_tensors() *)
  Interpreter : string -> option interp;
  (* load_img, img_to_array, expand_dims, preprocess_input (lines 46-49) *)
  preprocess : bytes -> option tensor;
  (* set_tensor, invoke, get_tensor (lines 51-54) *)
  invoke : interp -> tensor -> interp * option (array2 score);
  can_write : string -> bool
}.

(** [str(x)] for an optional string. *)
Definition py_str (s : option string) : string :=
  match s with
  | Some s => s
  | None => "None"
  end.

Definition jsonify (j : json) : json := j.

(** The paths [f.save] can open for writing: a path that ends in a slash
    names a directory and never is one. *)
Definition writable (R : Runtime) (path : string) : bool :=
  negb (ends_with_slash path) && can_write R path.

(** [f.save(path)]: the content of the upload is written at [path]; when
    the path cannot be opened the call raises and nothing is written. *)
Definition save (R : Runtime) (f : FileStorage) (path : string) : M unit :=
  fun w =>
    if writable R path
    then (Returned tt, mkWorld (<[path := stream f]> (fs w)) (log w ++ [EvSave path]))
    else (Raised (OSError path), w).

(** [os.remove(path)]: raises when there is no such file. *)
Definition os_remove (path : string) : M unit :=
  fun w => match fs w !! path with
           | Some _ => (Returned tt, mkWorld (delete path (fs w)) (log w ++ [EvRemove path]))
           | None => (Raised (FileNotFoundError path), w)
           end.

Section Handler.
Context (R : Runtime).
Local Open Scope handler_scope.

Abbreviation preds_t := (array2 (score R)).

(** [UPLOAD_FOLDER] (line 31). *)
Definition UPLOAD_FOLDER : string := path_join (app_dir R) "uploads".

(** [load_model] (lines 35-41). *)
Definition load_model (model_name : option string) : M (interp R) :=
  match opt_get MODEL_PATHS model_name with
  | None => raise (ValueError ("Model '" ++ py_str model_name ++ "' not found."))
  | Some model_path =>
      do! emit (EvLoad model_path) in
      match Interpreter R model_path with
      | Some interpreter => ret interpreter
      | None => raise (InterpreterError model_path)
      end
  end.

(** [model_predict] (lines 44-58).  Whatever is raised between reading the
    file and reading the output tensor is caught and turned into [None]; the
    function itself never raises.  The second component is the interpreter
    after the call. *)
Definition model_predict (img_path : string) (interpreter : interp R)
    : M (option preds_t * interp R) :=
  fun w =>
    match fs w !! img_path with
    | None => (Returned (None, interpreter), w)
    | Some content =>
        match preprocess R content with
        | None => (Returned (None, interpreter), w)
        | Some x =>
            let (interpreter', preds) := invoke R interpreter x in
            (Returned (preds, interpreter'), w)
        end
    end.


(** Line 99: [np.argmax(preds, axis=1)[0]]. *)
Definition pred_class_idx (preds : preds_t) : outcome nat :=
  match np_argmax_axis1 (score_le R) preds with
  | Returned a => array_getitem0 a
  | Raised e => Raised e
  end.

(** Line 100: the label at the position, or the sentinel. *)
Definition result (pred_class_idx : nat) : outcome string :=
  if (pred_class_idx <? length class_labels)%nat
  then list_getitem class_labels pred_class_idx
  else Returned "Prediction index out of range.".

(** The two dicts appended to [results] (lines 94 and 101). *)
Definition failed_entry (f : FileStorage) : json :=
  JObject [("filename", JString (filename f)); ("error", JString "Prediction failed.")].

Definition predicted_entry (f : FileStorage) (label : string) : json :=
  JObject [("filename", JString (filename f)); ("predicted_class", JString label)].

(** One turn of the loop (lines 83-104) on the file [f]: the interpreter and
    the [results] list after the turn. *)
Definition upload_file (f : FileStorage) (interpreter : interp R) (results : list json)
    : M (interp R * list json) :=
  if String.eqb (filename f) "" then ret (interpreter, results)
  else
    let file_path := path_join UPLOAD_FOLDER (secure_filename R (filename f)) in
    do! save R f file_path in
    let! p := model_predict file_path interpreter in
    match fst p with
    | None =>
        let results := results ++ [failed_entry f] in
        do! os_remove file_path in
        ret (snd p, results)
    | Some preds =>
        let! idx := lift (pred_class_idx preds) in
        let! label := lift (result idx) in
        let results := results ++ [predicted_entry f label] in
        do! os_remove file_path in
        ret (snd p, results)
    end.

(** The [for] loop of line 82 over the files it is given. *)
Fixpoint upload_loop (files : list FileStorage) (interpreter : interp R)
    (results : list json) : M (list json) :=
  match files with
  | [] => ret results
  | f :: rest =>
      let! s := upload_file f interpreter results in
      upload_loop rest (fst s) (snd s)
  end.

(** [upload] (lines 67-106). *)
Definition upload (request : Request) : M Response :=
  if negb (dict_contains (req_files request) "files") then
    ret (mkResponse (jsonify (JObject [("error", JString "No file part.")])) 400)
  else
    let files := getlist (req_files request) "files" in
    if (length files =? 0)%nat || forallb (fun f => String.eqb (filename f) "") files then
      ret (mkResponse (jsonify (JObject [("error", JString "At least one image file is required.")])) 400)
    else
      let selected_model := dict_get (req_form request) "model" in
      if negb (opt_contains MODEL_PATHS selected_model) then
        ret (mkResponse (jsonify (JObject [("error", JString "Invalid model selected.")])) 400)
      else
        let results := [] in
        let! interpreter := load_model selected_model in
        let! results := upload_loop (firstn 6 files) interpreter results in
        ret (mkResponse (jsonify (JObject [("results", JArray results)])) 200).

End Handler.

(** ** Vocabulary of the statements *)

(** The uploads of a request, [request.files.getlist('files')], and the
    artifact path of the model it selects. *)
Definition uploads (request : Request) : list FileStorage :=
  getlist (req_files request) "files".

Definition selected_path (request : Request) : option string :=
  opt_get MODEL_PATHS (dict_get (req_form request) "model").

(** The three checks of lines 68-77, as one boolean. *)
Definition passes_validation (request : Request) : bool :=
  dict_contains (req_files request) "files"
  && negb ((length (uploads request) =? 0)%nat
           || forallb (fun f => String.eqb (filename f) "") (uploads request))
  && opt_contains MODEL_PATHS (dict_get (req_form request) "model").

Definition nonempty_name (f : FileStorage) : bool := negb (String.eqb (filename f) "").

(** The files the loop of line 82 works on: those of the slice [files[:6]]
    that line 83 does not skip. *)
Definition processed (files : list FileStorage) : list FileStorage :=
  List.filter nonempty_name (firstn 6 files).

(** The responses of lines 73, 77 and 106. *)
Definition error_response (message : string) : Response :=
  mkResponse (jsonify (JObject [("error", JString message)])) 400.

Definition results_response (results : list json) : Response :=
  mkResponse (jsonify (JObject [("results", JArray results)])) 200.

(** Reading a response and its entries. *)
Definition results_of (r : Response) : option (list json) :=
  match body r with
  | JObject [(key, JArray items)] => if String.eqb key "results" then Some items else None
  | _ => None
  end.

Definition field (e : json) (key : string) : option string :=
  match e with
  | JObject fields =>
      match dict_get fields key with
      | Some (JString s) => Some s
      | _ => None
      end
  | _ => None
  end.

Definition is_storage_event (e : event) : bool :=
  match e with
  | EvLoad _ => false
  | _ => true
  end.

Section Reference.
Context (R : Runtime).

(** The temporary path of an upload (line 87). *)
Definition temp_path (f : FileStorage) : string :=
  path_join (UPLOAD_FOLDER R) (secure_filename R (filename f)).

(** The storage events of one completed turn of the loop. *)
Definition turn_events (f : FileStorage) : list event :=
  [EvSave (temp_path f); EvRemove (temp_path f)].

(** The world after completed turns on [files]: every temporary path is
    gone from storage and the log has one save and one remove per file. *)
Definition after_turns (files : list FileStorage) (w : World) : World :=
  mkWorld (fold_left (fun m f => delete (temp_path f) m) files (fs w))
          (log w ++ flat_map turn_events files).

(** The world a turn on [f] leaves when it raises: untouched when the save
    raised, with the upload saved and not removed when line 99 raised. *)
Definition interrupted_turn (f : FileStorage) (w : World) : World :=
  if writable R (temp_path f)
  then mkWorld (<[temp_path f := stream f]> (fs w)) (log w ++ [EvSave (temp_path f)])
  else w.

(** What [model_predict] computes from the content of the file it reads. *)
Definition predict_bytes (interpreter : interp R) (content : bytes)
    : option (array2 (score R)) * interp R :=
  match preprocess R content with
  | None => (None, interpreter)
  | Some x => let (interpreter', preds) := invoke R interpreter x in (preds, interpreter')
  end.

(** Lines 99-100 in one piece: from the output tensor to the label. *)
Definition interpret (preds : array2 (score R)) : outcome string :=
  match pred_class_idx R preds with
  | Returned idx => result idx
  | Raised e => Raised e
  end.

(** The entry a turn of the loop records for [f], when it records one:
    the turn raises when the upload cannot be saved (line 88) or when the
    output tensor cannot be interpreted (line 99). *)
Definition entry (interpreter : interp R) (f : FileStorage) : outcome json :=
  if writable R (temp_path f) then
    match fst (predict_bytes interpreter (stream f)) with
    | None => Returned (failed_entry f)
    | Some preds =>
        match interpret preds with
        | Returned label => Returned (predicted_entry f label)
        | Raised e => Raised e
        end
    end
  else Raised (OSError (temp_path f)).

(** Every upload of [files] can be saved at its temporary path. *)
Definition saves_ok (files : list FileStorage) : bool :=
  forallb (fun f => writable R (temp_path f)) files.

(** The entries of a run of turns, the interpreter being handed from one
    turn to the next. *)
Fixpoint entries (interpreter : interp R) (files : list FileStorage) : outcome (list json) :=
  match files with
  | [] => Returned []
  | f :: rest =>
      match entry interpreter f with
      | Raised e => Raised e
      | Returned j =>
          match entries (snd (predict_bytes interpreter (stream f))) rest with
          | Raised e => Raised e
          | Returned js => Returned (j :: js)
          end
      end
  end.

(** The interpreter each file of a run meets. *)
Fixpoint turns (interpreter : interp R) (files : list FileStorage)
    : list (interp R * FileStorage) :=
  match files with
  | [] => []
  | f :: rest => (interpreter, f) :: turns (snd (predict_bytes interpreter (stream f))) rest
  end.

(** The interpreters of one model: the freshly loaded one and every state
    it goes through. *)
Inductive handle_of (model_path : string) : interp R -> Prop :=
| handle_fresh it :
    Interpreter R model_path = Some it -> handle_of model_path it
| handle_used it x :
    handle_of model_path it -> handle_of model_path (fst (invoke R it x)).

(** An output tensor on which line 99 does not raise: at least one row, and
    no row without entries. *)
Definition shape_ok (preds : array2 (score R)) : bool :=
  match preds with
  | Batch row rows => forallb (fun row => negb (length row =? 0)%nat) (row :: rows)
  | NoRows _ => false
  end.

Definition well_shaped : Prop :=
  forall it x, match snd (invoke R it x) with
               | Some preds => shape_ok preds = true
               | None => True
               end.

(** A deterministic inference backend: the output for an input tensor
    depends on the model alone, not on what the interpreter did before. *)
Definition deterministic : Prop :=
  forall model_path it it' x,
    handle_of model_path it -> handle_of model_path it' ->
    snd (invoke R it x) = snd (invoke R it' x).

(** [<=] on scores is a total preorder. *)
Definition total_preorder : Prop :=
  (forall a b, score_le R a b = true \/ score_le R b a = true) /\
  (forall a b c, score_le R a b = true -> score_le R b c = true -> score_le R a c = true).

End Reference.

(** ** A small runtime to run the handler on

    Scores are integers and the "image" is the row of scores itself: the
    runtime reads the bytes of the file as the output vector.  A file
    without bytes does not decode; a file whose first byte is [0xff] makes
    the invocation fail.  The interpreter state counts the invocations.
    Sanitizing is werkzeug's [secure_filename] on names made of ASCII
    letters, digits, dots, dashes and underscores, where it comes down to
    its last step, [strip("._")].  The operating system refuses no path
    beyond those that name a directory. *)
Definition toy_invoke (n : nat) (x : bytes) : nat * option (array2 Z) :=
  match x with
  | [] => (S n, None)
  | Byte.xff :: _ => (S n, None)
  | _ => (S n, Some (Batch (map (fun b => Z.of_N (Byte.to_N b)) x) []))
  end.

Definition dot_or_underscore (c : ascii) : bool :=
  Ascii.eqb c "."%char || Ascii.eqb c "_"%char.

Fixpoint lstrip (s : string) : string :=
  match s with
  | String c rest => if dot_or_underscore c then lstrip rest else s
  | EmptyString => EmptyString
  end.

Fixpoint rstrip (s : string) : string :=
  match s with
  | String c rest =>
      match rstrip rest with
      | EmptyString => if dot_or_underscore c then EmptyString else String c EmptyString
      | kept => String c kept
      end
  | EmptyString => EmptyString
  end.

Definition strip_dots_underscores (name : string) : string := rstrip (lstrip name).

Definition toy_preprocess (content : bytes) : option bytes :=
  match content with
  | [] => None
  | _ => Some content
  end.

Definition toy : Runtime :=
  mkRuntime "/srv/app" strip_dots_underscores nat bytes Z Z.leb
            (fun _ => Some 0) toy_preprocess toy_invoke (fun _ => true).

(** The same runtime on a machine where the model artifacts are missing. *)
Definition toy_no_models : Runtime :=
  mkRuntime "/srv/app" strip_dots_underscores nat bytes Z Z.leb
            (fun _ => None) toy_preprocess toy_invoke (fun _ => true).

(** A runtime whose model has an output tensor without columns. *)
Definition toy_no_columns : Runtime :=
  mkRuntime "/srv/app" strip_dots_underscores nat bytes Z Z.leb
            (fun _ => Some 0) toy_preprocess (fun n _ => (S n, Some (Batch [] [])))
            (fun _ => true).

Definition empty_world : World := mkWorld ∅ [].

Definition img (name : string) (content : bytes) : string * FileStorage :=
  ("files", mkFile name content).

Definition scores_a : bytes := [Byte.x01; Byte.x09; Byte.x03; Byte.x02].
Definition scores_b : bytes := [Byte.x07; Byte.x02; Byte.x07; Byte.x01].
Definition scores_long : bytes := [Byte.x01; Byte.x02; Byte.x03; Byte.x04; Byte.x05; Byte.x06].

Definition one_file : Request :=
  mkRequest [img "a.png" scores_a] [("model", "MobileNetV2")].

Definition three_files : Request :=
  mkRequest [img "a.png" scores_a; img "broken.png" []; img "b.png" scores_b]
            [("model", "EfficientB0")].

Definition seven_files : Request :=
  mkRequest [img "" []; img "a.png" scores_a; img "b.png" scores_b; img "c.png" scores_a;
             img "d.png" scores_b; img "e.png" scores_a; img "f.png" scores_b]
            [("model", "NasNetMobile")].

Definition no_names : Request :=
  mkRequest [img "" scores_a; img "" scores_b] [("model", "MobileNetV2")].

Definition unknown_model : Request :=
  mkRequest [img "a.png" scores_a] [("model", "ResNet50")].

Definition no_model_field : Request :=
  mkRequest [img "a.png" scores_a] [].

Definition two_files : Request :=
  mkRequest [img "b.png" scores_b; img "again.png" scores_a] [("model", "MobileNetV2")].

(** Requests with an upload named "..": the name is not empty, and
    sanitizing leaves nothing of it. *)
Definition dots_file : Request :=
  mkRequest [img ".." scores_a] [("model", "MobileNetV2")].

Definition broken_then_dots : Request :=
  mkRequest [img "broken.png" []; img ".." scores_a] [("model", "EfficientB0")].

(** A request without the [files] field, and one whose only named upload
    comes after six unnamed ones. *)
Definition no_files_field : Request :=
  mkRequest [("image", mkFile "a.png" scores_a)] [("model", "MobileNetV2")].

Definition named_seventh : Request :=
  mkRequest [img "" []; img "" []; img "" []; img "" []; img "" []; img "" [];
             img "late.png" scores_a]
            [("model", "MobileNetV2")].

(** What serving [seven_files] gives. *)
Definition seven_files_response : Response :=
  mkResponse (JObject [("results", JArray [
    JObject [("filename", JString "a.png"); ("predicted_class", JString "PreB")];
    JObject [("filename", JString "b.png"); ("predicted_class", JString "EarlyPreB")];
    JObject [("filename", JString "c.png"); ("predicted_class", JString "PreB")];
    JObject [("filename", JString "d.png"); ("predicted_class", JString "EarlyPreB")];
    JObject [("filename", JString "e.png"); ("predicted_class", JString "PreB")]])]) 200.

(** A world in which a file already sits where the upload a.png will be
    written. *)
Definition stale_world : World :=
  mkWorld {[ "/srv/app/uploads/a.png" := scores_b ]} [].

(** The messages of the two exceptions line 99 can raise. *)
Definition argmax_empty : exn := ValueError "attempt to get argmax of an empty sequence".
Definition no_first_row : exn := IndexError "index 0 is out of bounds for axis 0 with size 0".

(** The value of [result] when the guard of line 100 fails. *)
Definition out_of_range_label : string := "Prediction index out of range.".

(** A world in which an earlier request has left its traces. *)
Definition busy_world : World :=
  mkWorld {[ "/srv/app/uploads/old.png" := scores_long ]}
          [EvLoad "models/EfficientB0.tflite"; EvSave "/srv/app/uploads/old.png"].

(** What serving [one_file] and [two_files] gives. *)
Definition one_file_response : Response :=
  mkResponse (JObject [("results", JArray [
    JObject [("filename", JString "a.png"); ("predicted_class", JString "PreB")]])]) 200.

Definition two_files_response : Response :=
  mkResponse (JObject [("results", JArray [
    JObject [("filename", JString "b.png"); ("predicted_class", JString "EarlyPreB")];
    JObject [("filename", JString "again.png"); ("predicted_class", JString "PreB")]])]) 200.

(** What serving [three_files] in that world gives. *)
Definition three_files_response : Response :=
  mkResponse (JObject [("results", JArray [
    JObject [("filename", JString "a.png"); ("predicted_class", JString "PreB")];
    JObject [("filename", JString "broken.png"); ("error", JString "Prediction failed.")];
    JObject [("filename", JString "b.png"); ("predicted_class", JString "EarlyPreB")]])]) 200.

Definition three_files_world : World :=
  mkWorld {[ "/srv/app/uploads/old.png" := scores_long ]}
          [EvLoad "models/EfficientB0.tflite"; EvSave "/srv/app/uploads/old.png";
           EvLoad "models/EfficientB0.tflite";
           EvSave "/srv/app/uploads/a.png"; EvRemove "/srv/app/uploads/a.png";
           EvSave "/srv/app/uploads/broken.png"; EvRemove "/srv/app/uploads/broken.png";
           EvSave "/srv/app/uploads/b.png"; EvRemove "/srv/app/uploads/b.png"].

(** * Properties *)

(** ** Arg-max and the label lookup *)

Section ArgMax.
Context {A : Type} (le : A -> A -> bool).
Hypothesis le_total : forall a b, le a b = true \/ le b a = true.
Hypothesis le_trans : forall a b c, le a b = true -> le b c = true -> le a c = true.

(** The scan answers a position it has seen: the one it started from or a
    later one inside the row. *)
Lemma argmax_scan_range (row : list A) i mp max_ind :
  (max_ind < i)%nat ->
  (argmax_scan le row i mp max_ind < i + length row)%nat.
Proof.
  revert i mp max_ind.
  induction row as [|x rest IH]; intros i mp max_ind Hlt; simpl.
  - lia.
  - destruct (le x mp).
    + specialize (IH (S i) mp max_ind). lia.
    + specialize (IH (S i) x i). lia.
Qed.

(** Invariant of the scan.  If [mp] sits at [max_ind] in the whole vector
    [v], dominates everything before position [i] and strictly dominates
    everything before [max_ind], then the same holds of the answer. *)
Lemma argmax_scan_first (v row : list A) i mp max_ind :
  nth_error v max_ind = Some mp ->
  (forall j, (i <= j)%nat -> nth_error v j = nth_error row (j - i)) ->
  (forall j x, (j < i)%nat -> nth_error v j = Some x -> le x mp = true) ->
  (forall j x, (j < max_ind)%nat -> nth_error v j = Some x -> le mp x = false) ->
  exists m, nth_error v (argmax_scan le row i mp max_ind) = Some m /\
    (forall j x, nth_error v j = Some x -> le x m = true) /\
    (forall j x, (j < argmax_scan le row i mp max_ind)%nat ->
                 nth_error v j = Some x -> le m x = false).
Proof.
  revert i mp max_ind.
  induction row as [|x rest IH]; intros i mp max_ind Hmp Hrow Hle Hlt; simpl.
  - exists mp. split; [exact Hmp|]. split; [|exact Hlt].
    intros j y Hj. destruct (Nat.lt_ge_cases j i) as [Hji|Hji].
    + eapply Hle; eauto.
    + rewrite Hrow in Hj by exact Hji. destruct (j - i)%nat; discriminate.
  - assert (Hx : nth_error v i = Some x).
    { rewrite Hrow by lia. replace (i - i)%nat with 0%nat by lia. reflexivity. }
    assert (Hrest : forall j, (S i <= j)%nat -> nth_error v j = nth_error rest (j - S i)).
    { intros j Hj. rewrite Hrow by lia.
      replace (j - i)%nat with (S (j - S i)) by lia. reflexivity. }
    destruct (le x mp) eqn:Hxmp.
    + apply IH; auto.
      intros j y Hj Hy. destruct (Nat.eq_dec j i) as [->|Hne].
      * congruence.
      * apply (Hle j); [lia|exact Hy].
    + assert (Hmpx : le mp x = true).
      { destruct (le_total x mp) as [H|H]; [congruence|exact H]. }
      apply IH; auto.
      * intros j y Hj Hy. destruct (Nat.eq_dec j i) as [->|Hne].
        -- assert (y = x) by congruence. subst y.
           destruct (le_total x x) as [H|H]; exact H.
        -- eapply le_trans; [|exact Hmpx]. apply (Hle j); [lia|exact Hy].
      * intros j y Hj Hy. destruct (le x y) eqn:Hxy; [|reflexivity].
        assert (le y mp = true) by (apply (Hle j); [lia|exact Hy]).
        assert (le x mp = true) by (eapply le_trans; eauto). congruence.
Qed.

End ArgMax.

Section Properties.
Context (R : Runtime).

(** ** The result interpreter (lines 99-100) *)

Lemma np_argmax_range {A} (le : A -> A -> bool) (row : list A) idx :
  np_argmax le row = Returned idx -> (idx < length row)%nat.
Proof.
  destruct row as [|x rest]; simpl; intros H; [discriminate|].
  injection H as <-.
  pose proof (argmax_scan_range le rest 1 x 0). lia.
Qed.

(** Only the first row decides the position that line 99 reads. *)
Lemma pred_class_idx_first_row (preds : array2 (score R)) idx :
  pred_class_idx R preds = Returned idx ->
  exists row rows, preds = Batch row rows /\ np_argmax (score_le R) row = Returned idx.
Proof.
  unfold pred_class_idx. destruct preds as [row rows|columns]; simpl.
  - destruct (np_argmax (score_le R) row) as [i|e] eqn:Hrow; [|discriminate].
    destruct (argmax_rows (score_le R) rows); simpl; [|discriminate].
    intros H. injection H as <-. eauto.
  - destruct (columns =? 0)%nat; discriminate.
Qed.

Lemma argmax_rows_shape (rows : list (list (score R))) :
  forallb (fun row => negb (length row =? 0)%nat) rows = true ->
  exists idxs, argmax_rows (score_le R) rows = Returned idxs /\ length idxs = length rows.
Proof.
  induction rows as [|row rows IH]; simpl; intros H.
  - exists []. auto.
  - apply andb_true_iff in H as [Hrow Hrows].
    destruct (IH Hrows) as (idxs & -> & Hlen).
    destruct row as [|x rest]; [discriminate|]. simpl.
    eexists. split; [reflexivity|]. simpl. congruence.
Qed.

Lemma pred_class_idx_shape_ok (preds : array2 (score R)) :
  shape_ok R preds = true -> exists idx, pred_class_idx R preds = Returned idx.
Proof.
  unfold shape_ok, pred_class_idx, np_argmax_axis1.
  destruct preds as [row rows|columns]; intros H; [|discriminate].
  destruct (argmax_rows_shape (row :: rows) H) as (idxs & -> & Hlen).
  destruct idxs as [|i idxs]; simpl; [discriminate|eauto].
Qed.

(** The guard of line 100 keeps the list access inside the list. *)
Lemma result_in_range idx :
  (idx < 4)%nat -> exists label, nth_error class_labels idx = Some label /\ result idx = Returned label.
Proof.
  intros H. unfold result, list_getitem.
  do 4 (destruct idx as [|idx]; [simpl; eauto|]). lia.
Qed.

Lemma result_out_of_range idx :
  (4 <= idx)%nat -> result idx = Returned "Prediction index out of range.".
Proof.
  intros H. unfold result.
  replace (idx <? length class_labels)%nat with false; [reflexivity|].
  symmetry. apply Nat.ltb_ge. exact H.
Qed.

Lemma result_total idx : exists label, result idx = Returned label.
Proof.
  destruct (Nat.lt_ge_cases idx 4) as [H|H].
  - destruct (result_in_range idx H) as (label & _ & ->). eauto.
  - rewrite result_out_of_range by exact H. eauto.
Qed.

Lemma interpret_shape_ok (preds : array2 (score R)) :
  shape_ok R preds = true -> exists label, interpret R preds = Returned label.
Proof.
  intros H. unfold interpret.
  destruct (pred_class_idx_shape_ok preds H) as (idx & ->). apply result_total.
Qed.

(** ** One turn of the loop *)

Lemma upload_file_skip f it rs w :
  filename f = "" -> upload_file R f it rs w = (Returned (it, rs), w).
Proof. intros H. unfold upload_file. rewrite H. reflexivity. Qed.

(** A turn on a named file, as an equation: when the entry can be computed
    the file is saved, read, removed and the entry appended; when the save
    raises nothing has happened, and when line 99 raises the exception
    leaves the turn after the save. *)
Lemma upload_file_turn f it rs w :
  nonempty_name f = true ->
  upload_file R f it rs w =
    match entry R it f with
    | Returned e =>
        (Returned (snd (predict_bytes R it (stream f)), rs ++ [e]), after_turns R [f] w)
    | Raised ex => (Raised ex, interrupted_turn R f w)
    end.
Proof.
  unfold nonempty_name. intros Hname. apply negb_true_iff in Hname.
  unfold upload_file. rewrite Hname.
  unfold entry, interrupted_turn, interpret, predict_bytes, after_turns, turn_events.
  fold (temp_path R f).
  unfold bind, save. destruct (writable R (temp_path R f)); [|reflexivity].
  unfold model_predict, os_remove, lift, ret. simpl.
  rewrite lookup_insert_eq.
  destruct (preprocess R (stream f)) as [x|]; simpl.
  - destruct (invoke R it x) as [it' [preds|]]; simpl.
    + destruct (pred_class_idx R preds) as [idx|ex]; simpl; [|reflexivity].
      destruct (result idx) as [label|ex]; simpl; [|reflexivity].
      rewrite lookup_insert_eq, delete_insert_eq, <- app_assoc. reflexivity.
    + rewrite lookup_insert_eq, delete_insert_eq, <- app_assoc. reflexivity.
  - rewrite lookup_insert_eq, delete_insert_eq, <- app_assoc. reflexivity.
Qed.

Lemma after_turns_cons f files w :
  after_turns R (f :: files) w = after_turns R files (after_turns R [f] w).
Proof. unfold after_turns. simpl. rewrite <- app_assoc. reflexivity. Qed.

Lemma after_turns_nil w : after_turns R [] w = w.
Proof. unfold after_turns. simpl. rewrite app_nil_r. destruct w; reflexivity. Qed.

(** ** The loop *)

(** The loop against its entries: it returns exactly when every entry can
    be computed, and then it has appended them in order and left the world
    of completed turns; otherwise it raises, having logged storage events
    only. *)
Lemma upload_loop_spec files it rs w :
  match entries R it (List.filter nonempty_name files) with
  | Returned js =>
      upload_loop R files it rs w =
        (Returned (rs ++ js), after_turns R (List.filter nonempty_name files) w)
  | Raised ex =>
      exists w' evs, upload_loop R files it rs w = (Raised ex, w') /\
        log w' = log w ++ evs /\ forallb is_storage_event evs = true
  end.
Proof.
  revert it rs w. induction files as [|f rest IH]; intros it rs w.
  - simpl. rewrite after_turns_nil, app_nil_r. reflexivity.
  - simpl. destruct (nonempty_name f) eqn:Hname.
    + unfold bind. rewrite upload_file_turn by exact Hname.
      simpl. destruct (entry R it f) as [j|ex] eqn:Hentry.
      * simpl. specialize (IH (snd (predict_bytes R it (stream f))) (rs ++ [j]) (after_turns R [f] w)).
        destruct (entries R (snd (predict_bytes R it (stream f))) (List.filter nonempty_name rest)) as [js|ex].
        -- rewrite IH, (after_turns_cons f (List.filter nonempty_name rest)), <- app_assoc.
           reflexivity.
        -- destruct IH as (w' & evs & Hrun & Hlog & Hevs).
           exists w', (turn_events R f ++ evs). split; [exact Hrun|]. split.
           ++ rewrite Hlog. simpl. rewrite <- app_assoc. reflexivity.
           ++ simpl. exact Hevs.
      * unfold interrupted_turn. destruct (writable R (temp_path R f)).
        -- eexists _, [EvSave (temp_path R f)]. split; [reflexivity|]. split; reflexivity.
        -- exists w, []. split; [reflexivity|]. split; [|reflexivity].
           rewrite app_nil_r. reflexivity.
    + unfold bind. rewrite upload_file_skip.
      * simpl. apply IH.
      * unfold nonempty_name in Hname. apply negb_false_iff in Hname.
        apply String.eqb_eq. exact Hname.
Qed.

Lemma upload_loop_returned files it rs w rs' w' :
  upload_loop R files it rs w = (Returned rs', w') ->
  exists js, entries R it (List.filter nonempty_name files) = Returned js /\
    rs' = rs ++ js /\ w' = after_turns R (List.filter nonempty_name files) w.
Proof.
  intros Hrun. pose proof (upload_loop_spec files it rs w) as Hspec.
  destruct (entries R it (List.filter nonempty_name files)) as [js|ex].
  - rewrite Hspec in Hrun. injection Hrun as <- <-. eauto.
  - destruct Hspec as (w0 & evs & Hraise & _). congruence.
Qed.

(** ** The handler after validation *)

Lemma dict_contains_get {V} (d : list (string * V)) key :
  dict_contains d key = true -> exists v, dict_get d key = Some v.
Proof.
  unfold dict_contains. induction d as [|[k v] d IH]; simpl; [discriminate|].
  destruct (String.eqb k key); simpl; eauto.
Qed.

Lemma passes_validation_selected request :
  passes_validation request = true -> exists model_path, selected_path request = Some model_path.
Proof.
  unfold passes_validation, selected_path. intros H.
  apply andb_true_iff in H as [_ H].
  destruct (dict_get (req_form request) "model") as [name|];
    cbn [opt_contains opt_get] in *; [|discriminate].
  apply dict_contains_get. exact H.
Qed.

(** Past the three checks the handler logs one load and, when the
    interpreter comes up, runs the loop on the first six uploads. *)
Lemma upload_valid request w model_path :
  passes_validation request = true ->
  selected_path request = Some model_path ->
  upload R request w =
    match Interpreter R model_path with
    | None => (Raised (InterpreterError model_path),
               mkWorld (fs w) (log w ++ [EvLoad model_path]))
    | Some it =>
        match upload_loop R (firstn 6 (uploads request)) it []
                (mkWorld (fs w) (log w ++ [EvLoad model_path])) with
        | (Returned rs, w') => (Returned (results_response rs), w')
        | (Raised ex, w') => (Raised ex, w')
        end
    end.
Proof.
  unfold passes_validation, selected_path, uploads. intros Hval Hpath.
  apply andb_true_iff in Hval as [Hval Hmodel].
  apply andb_true_iff in Hval as [Hfiles Hnamed].
  unfold upload. rewrite Hfiles. cbn [negb].
  apply negb_true_iff in Hnamed. rewrite Hnamed, Hmodel. cbn [negb].
  unfold bind, load_model. rewrite Hpath. unfold bind, emit.
  destruct (Interpreter R model_path) as [it|]; reflexivity.
Qed.

(** ** Entries of a run *)

Lemma entry_filename it f j :
  entry R it f = Returned j -> field j "filename" = Some (filename f).
Proof.
  unfold entry. destruct (writable R (temp_path R f)); [|discriminate].
  destruct (fst (predict_bytes R it (stream f))) as [preds|].
  - destruct (interpret R preds); [|discriminate]. intros H. injection H as <-. reflexivity.
  - intros H. injection H as <-. reflexivity.
Qed.

Lemma predict_bytes_shape it content preds :
  well_shaped R -> fst (predict_bytes R it content) = Some preds -> shape_ok R preds = true.
Proof.
  intros Hshape. unfold predict_bytes.
  destruct (preprocess R content) as [x|]; simpl; [|discriminate].
  specialize (Hshape it x). destruct (invoke R it x) as [it' out]. simpl in *.
  intros ->. exact Hshape.
Qed.

Lemma entry_well_shaped it f :
  well_shaped R -> writable R (temp_path R f) = true -> exists j, entry R it f = Returned j.
Proof.
  intros Hshape Hsave. unfold entry. rewrite Hsave.
  destruct (fst (predict_bytes R it (stream f))) as [preds|] eqn:Hp; [|eauto].
  apply (predict_bytes_shape _ _ _ Hshape) in Hp.
  destruct (interpret_shape_ok preds Hp) as (label & ->). eauto.
Qed.

Lemma entries_well_shaped files it :
  well_shaped R -> saves_ok R files = true -> exists js, entries R it files = Returned js.
Proof.
  intros Hshape. revert it. unfold saves_ok.
  induction files as [|f rest IH]; intros it Hsaves; simpl in *; [eauto|].
  apply andb_true_iff in Hsaves as [Hsave Hrest].
  destruct (entry_well_shaped it f Hshape Hsave) as (j & ->).
  destruct (IH (snd (predict_bytes R it (stream f))) Hrest) as (js & ->). eauto.
Qed.

(** The entries line up with the turns: entry [k] is the entry of file [k]
    under the interpreter that file meets. *)
Lemma entries_turns files it js :
  entries R it files = Returned js ->
  Forall2 (fun t j => entry R (fst t) (snd t) = Returned j) (turns R it files) js.
Proof.
  revert it js. induction files as [|f rest IH]; intros it js; simpl.
  - intros H. injection H as <-. constructor.
  - destruct (entry R it f) as [j|] eqn:Hj; [|discriminate].
    destruct (entries R (snd (predict_bytes R it (stream f))) rest) as [js'|] eqn:Hrest;
      [|discriminate].
    intros H. injection H as <-. constructor; [exact Hj|]. apply IH. exact Hrest.
Qed.

Lemma turns_files files it : map snd (turns R it files) = files.
Proof.
  revert it. induction files as [|f rest IH]; intros it; simpl; [reflexivity|].
  rewrite IH. reflexivity.
Qed.

Lemma entries_names files it js :
  entries R it files = Returned js ->
  map (fun j => field j "filename") js = map (fun f => Some (filename f)) files.
Proof.
  revert it js. induction files as [|f rest IH]; intros it js; simpl.
  - intros H. injection H as <-. reflexivity.
  - destruct (entry R it f) as [j|] eqn:Hj; [|discriminate].
    destruct (entries R (snd (predict_bytes R it (stream f))) rest) as [js'|] eqn:Hrest;
      [|discriminate].
    intros H. injection H as <-. simpl.
    rewrite (entry_filename _ _ _ Hj), (IH _ _ Hrest). reflexivity.
Qed.

Lemma entries_length files it js :
  entries R it files = Returned js -> length js = length files.
Proof.
  intros H. apply entries_names in H.
  apply (f_equal (@length _)) in H. rewrite !length_map in H. exact H.
Qed.

(** ** Storage after a run *)

Lemma fold_delete_lookup (files : list FileStorage) (m : gmap string bytes) p :
  fold_left (fun m f => delete (temp_path R f) m) files m !! p =
    if existsb (fun f => String.eqb (temp_path R f) p) files then None else m !! p.
Proof.
  revert m. induction files as [|f rest IH]; intros m; simpl; [reflexivity|].
  rewrite IH. destruct (String.eqb (temp_path R f) p) eqn:Hp; simpl.
  - apply String.eqb_eq in Hp. subst p. rewrite lookup_delete_eq.
    destruct (existsb _ rest); reflexivity.
  - apply String.eqb_neq in Hp. rewrite lookup_delete_ne by exact Hp. reflexivity.
Qed.

Lemma saved_in_turn_events files p :
  In (EvSave p) (flat_map (turn_events R) files) ->
  existsb (fun f => String.eqb (temp_path R f) p) files = true /\
  exists before after,
    flat_map (turn_events R) files = before ++ EvSave p :: EvRemove p :: after.
Proof.
  induction files as [|f rest IH]; simpl; [tauto|].
  intros [Hhere|[Hhere|Hlater]].
  - injection Hhere as <-. rewrite String.eqb_refl. split; [reflexivity|].
    exists [], (flat_map (turn_events R) rest). reflexivity.
  - discriminate.
  - destruct (IH Hlater) as (Hex & before & after & Heq). split.
    + rewrite Hex. apply orb_true_r.
    + exists (EvSave (temp_path R f) :: EvRemove (temp_path R f) :: before), after.
      rewrite Heq. reflexivity.
Qed.

Lemma turn_events_storage files :
  forallb is_storage_event (flat_map (turn_events R) files) = true.
Proof. induction files as [|f rest IH]; simpl; auto. Qed.

(** ** Requests that are rejected, requests that are served *)

Lemma upload_rejected request w :
  passes_validation request = false ->
  exists message, upload R request w = (Returned (error_response message), w).
Proof.
  unfold passes_validation, uploads, upload. intros H.
  destruct (dict_contains (req_files request) "files"); cbn [negb andb] in *; [|eauto].
  destruct ((length (getlist (req_files request) "files") =? 0)%nat
            || forallb (fun f => String.eqb (filename f) "") (getlist (req_files request) "files"));
    cbn [negb andb] in *; [eauto|].
  rewrite H. cbn [negb]. eauto.
Qed.

(** A validated request whose model loads and whose uploads can be saved,
    on a runtime whose output tensors are well shaped, is answered with the
    entries of the files the loop works on. *)
Lemma upload_served request w model_path it0 :
  passes_validation request = true ->
  selected_path request = Some model_path ->
  Interpreter R model_path = Some it0 ->
  saves_ok R (processed (uploads request)) = true ->
  well_shaped R ->
  exists js, entries R it0 (processed (uploads request)) = Returned js /\
    upload R request w =
      (Returned (results_response js),
       after_turns R (processed (uploads request))
                   (mkWorld (fs w) (log w ++ [EvLoad model_path]))).
Proof.
  intros Hval Hpath Hload Hsaves Hshape.
  destruct (entries_well_shaped (processed (uploads request)) it0 Hshape Hsaves) as (js & Hjs).
  exists js. split; [exact Hjs|].
  rewrite (upload_valid _ _ _ Hval Hpath), Hload.
  pose proof (upload_loop_spec (firstn 6 (uploads request)) it0 []
                (mkWorld (fs w) (log w ++ [EvLoad model_path]))) as Hloop.
  unfold processed in Hjs. rewrite Hjs in Hloop. rewrite Hloop. reflexivity.
Qed.

Lemma processed_all (files : list FileStorage) :
  forallb nonempty_name files = true -> (length files <= 6)%nat -> processed files = files.
Proof.
  intros Hnamed Hlen. unfold processed. rewrite firstn_all2 by exact Hlen.
  induction files as [|f rest IH]; simpl in *; [reflexivity|].
  apply andb_true_iff in Hnamed as [-> Hrest]. rewrite IH; [reflexivity|exact Hrest|lia].
Qed.

Lemma Forall2_nth_error {A B} (P : A -> B -> Prop) (l : list A) (k : list B) i x :
  Forall2 P l k -> nth_error l i = Some x -> exists y, nth_error k i = Some y /\ P x y.
Proof.
  intros H. revert i. induction H as [|a b l k Hab _ IH]; intros i Hi.
  - destruct i; discriminate.
  - destruct i as [|i]; simpl in *.
    + injection Hi as <-. eauto.
    + apply IH. exact Hi.
Qed.

(** ** Interpreters of one model *)

Lemma predict_bytes_handle model_path it content :
  handle_of R model_path it -> handle_of R model_path (snd (predict_bytes R it content)).
Proof.
  intros H. unfold predict_bytes. destruct (preprocess R content) as [x|]; simpl; [|exact H].
  pose proof (handle_used R model_path it x H) as Hnext.
  destruct (invoke R it x) as [it' out]. exact Hnext.
Qed.

Lemma turns_handle model_path files it k f :
  handle_of R model_path it ->
  nth_error files k = Some f ->
  exists itk, nth_error (turns R it files) k = Some (itk, f) /\ handle_of R model_path itk.
Proof.
  revert it k. induction files as [|g rest IH]; intros it k Hit Hk.
  - destruct k; discriminate.
  - destruct k as [|k]; simpl in *.
    + injection Hk as ->. eauto.
    + apply IH; [|exact Hk]. apply predict_bytes_handle. exact Hit.
Qed.

Lemma predict_bytes_deterministic model_path it it' content :
  deterministic R ->
  handle_of R model_path it -> handle_of R model_path it' ->
  fst (predict_bytes R it content) = fst (predict_bytes R it' content).
Proof.
  intros Hdet Hit Hit'. unfold predict_bytes.
  destruct (preprocess R content) as [x|]; simpl; [|reflexivity].
  specialize (Hdet model_path it it' x Hit Hit').
  destruct (invoke R it x), (invoke R it' x). exact Hdet.
Qed.

Lemma entry_same_prediction it1 it2 f1 f2 j1 j2 :
  fst (predict_bytes R it1 (stream f1)) = fst (predict_bytes R it2 (stream f2)) ->
  entry R it1 f1 = Returned j1 -> entry R it2 f2 = Returned j2 ->
  exists key value,
    j1 = JObject [("filename", JString (filename f1)); (key, JString value)] /\
    j2 = JObject [("filename", JString (filename f2)); (key, JString value)].
Proof.
  unfold entry. intros <-.
  destruct (writable R (temp_path R f1)); [|discriminate].
  destruct (writable R (temp_path R f2)); [|intros _ H; discriminate H].
  destruct (fst (predict_bytes R it1 (stream f1))) as [preds|].
  - destruct (interpret R preds) as [label|]; [|discriminate].
    intros H1 H2. injection H1 as <-. injection H2 as <-.
    exists "predicted_class", label. split; reflexivity.
  - intros H1 H2. injection H1 as <-. injection H2 as <-.
    exists "error", "Prediction failed.". split; reflexivity.
Qed.

(** What [model_predict] reads is what the turn has just saved. *)
Lemma model_predict_saved f path it w :
  writable R path = true ->
  bind (save R f path) (fun _ => model_predict R path it) w =
    (Returned (predict_bytes R it (stream f)),
     mkWorld (<[path := stream f]> (fs w)) (log w ++ [EvSave path])).
Proof.
  intros Hsave. unfold bind, save, model_predict, predict_bytes. rewrite Hsave. simpl.
  rewrite lookup_insert_eq.
  destruct (preprocess R (stream f)) as [x|]; [|reflexivity].
  destruct (invoke R it x); reflexivity.
Qed.

(** ** The claims of the specification *)

(** C1, amended.  A request that passes validation, with N uploads all of
    which are named and 1 <= N <= 6, whose model loads and whose uploads
    can all be saved at their temporary paths, on a runtime whose output
    tensors are well shaped, is answered with status 200 and a results list
    of exactly N entries, in upload order, each carrying the original file
    name. *)
Theorem valid_request_one_entry_per_upload request w model_path it0 :
  passes_validation request = true ->
  forallb nonempty_name (uploads request) = true ->
  (1 <= length (uploads request) <= 6)%nat ->
  selected_path request = Some model_path ->
  Interpreter R model_path = Some it0 ->
  saves_ok R (uploads request) = true ->
  well_shaped R ->
  exists results w',
    upload R request w =
      (Returned (mkResponse (JObject [("results", JArray results)]) 200), w') /\
    length results = length (uploads request) /\
    map (fun j => field j "filename") results =
      map (fun f => Some (filename f)) (uploads request).
Proof.
  intros Hval Hnamed [_ Hlen] Hpath Hload Hsaves Hshape.
  rewrite <- (processed_all _ Hnamed Hlen) in Hsaves.
  destruct (upload_served request w model_path it0 Hval Hpath Hload Hsaves Hshape)
    as (js & Hjs & Hrun).
  rewrite (processed_all _ Hnamed Hlen) in Hjs.
  exists js. eexists. split; [exact Hrun|]. split.
  - eapply entries_length. exact Hjs.
  - eapply entries_names. exact Hjs.
Qed.

(** C2, amended.  For a request with more than 6 uploads (validated, model
    loaded, the named uploads among the first 6 savable, well-shaped
    outputs) the entries of the response are those of the named uploads
    among the first 6 of the list, in order: an unnamed upload is skipped
    but still takes one of the 6 places, and nothing from the 7th place on
    is saved or gets an entry. *)
Theorem more_than_six_uploads request w model_path it0 :
  passes_validation request = true ->
  (6 < length (uploads request))%nat ->
  selected_path request = Some model_path ->
  Interpreter R model_path = Some it0 ->
  saves_ok R (List.filter nonempty_name (firstn 6 (uploads request))) = true ->
  well_shaped R ->
  exists results w',
    upload R request w =
      (Returned (mkResponse (JObject [("results", JArray results)]) 200), w') /\
    map (fun j => field j "filename") results =
      map (fun f => Some (filename f)) (List.filter nonempty_name (firstn 6 (uploads request))) /\
    log w' = log w ++ EvLoad model_path ::
               flat_map (turn_events R) (List.filter nonempty_name (firstn 6 (uploads request))).
Proof.
  intros Hval _ Hpath Hload Hsaves Hshape.
  destruct (upload_served request w model_path it0 Hval Hpath Hload Hsaves Hshape)
    as (js & Hjs & Hrun).
  exists js. eexists. split; [exact Hrun|]. split.
  - eapply entries_names. exact Hjs.
  - unfold after_turns, processed. simpl. rewrite <- app_assoc. reflexivity.
Qed.

(** C3.  Whenever the handler produces a response, every file it saved
    during the request has been removed: each save in the log of the
    request is followed at once by the removal of the same path, and no
    saved path is on storage in the final world.  This covers the turn that
    records a predicted class and the turn that records a failure. *)
Theorem saved_uploads_removed_before_response request w response w' :
  upload R request w = (Returned response, w') ->
  exists evs, log w' = log w ++ evs /\
    forall p, In (EvSave p) evs ->
      fs w' !! p = None /\
      exists before after, evs = before ++ EvSave p :: EvRemove p :: after.
Proof.
  intros Hrun. destruct (passes_validation request) eqn:Hval.
  - destruct (passes_validation_selected request Hval) as (model_path & Hpath).
    rewrite (upload_valid _ _ _ Hval Hpath) in Hrun.
    destruct (Interpreter R model_path) as [it0|]; [|discriminate].
    destruct (upload_loop R (firstn 6 (uploads request)) it0 []
                (mkWorld (fs w) (log w ++ [EvLoad model_path]))) as [[rs|ex] w1] eqn:Hloop;
      [|discriminate].
    injection Hrun as _ <-.
    apply upload_loop_returned in Hloop as (js & _ & _ & ->).
    set (files := List.filter nonempty_name (firstn 6 (uploads request))).
    exists (EvLoad model_path :: flat_map (turn_events R) files). split.
    + unfold after_turns. simpl. rewrite <- app_assoc. reflexivity.
    + intros p [Hp|Hp]; [discriminate|].
      destruct (saved_in_turn_events files p Hp) as (Hex & before & after & Heq). split.
      * unfold after_turns. simpl. rewrite fold_delete_lookup, Hex. reflexivity.
      * exists (EvLoad model_path :: before), after. rewrite Heq. reflexivity.
  - destruct (upload_rejected request w Hval) as (message & Hrej).
    rewrite Hrej in Hrun. injection Hrun as _ <-.
    exists []. split; [rewrite app_nil_r; reflexivity|]. intros p [].
Qed.

(** C4, amended.  For a validated request whose model loads, whose
    processed uploads can all be saved and whose output tensors are well
    shaped, the response is 200 and its results hold, position by position,
    the outcome of each processed upload under the interpreter it meets:
    {filename, error: "Prediction failed."} when preprocessing or inference
    failed for it, {filename, predicted_class: label} with the interpreted
    label otherwise.  A failure stops nothing: every processed upload,
    failed or not, is saved and removed, in order, and none is left on
    storage. *)
Theorem failed_prediction_recorded request w model_path it0 :
  passes_validation request = true ->
  selected_path request = Some model_path ->
  Interpreter R model_path = Some it0 ->
  saves_ok R (processed (uploads request)) = true ->
  well_shaped R ->
  exists results w',
    upload R request w =
      (Returned (mkResponse (JObject [("results", JArray results)]) 200), w') /\
    Forall2 (fun t e =>
               match fst (predict_bytes R (fst t) (stream (snd t))) with
               | None =>
                   e = JObject [("filename", JString (filename (snd t)));
                                ("error", JString "Prediction failed.")]
               | Some preds =>
                   exists label, interpret R preds = Returned label /\
                     e = JObject [("filename", JString (filename (snd t)));
                                  ("predicted_class", JString label)]
               end)
            (turns R it0 (processed (uploads request))) results /\
    log w' = log w ++ EvLoad model_path ::
               flat_map (turn_events R) (processed (uploads request)) /\
    forall f, In f (processed (uploads request)) -> fs w' !! temp_path R f = None.
Proof.
  intros Hval Hpath Hload Hsaves Hshape.
  destruct (upload_served request w model_path it0 Hval Hpath Hload Hsaves Hshape)
    as (js & Hjs & Hrun).
  exists js. eexists. split; [exact Hrun|]. split; [|split].
  - eapply Forall2_impl; [apply entries_turns; exact Hjs|].
    intros [it f] e. unfold entry. simpl.
    destruct (writable R (temp_path R f)); [|discriminate].
    destruct (fst (predict_bytes R it (stream f))) as [preds|].
    + destruct (interpret R preds) as [label|]; [|discriminate].
      intros H. injection H as <-. exists label. split; reflexivity.
    + intros H. injection H as <-. reflexivity.
  - unfold after_turns. simpl. rewrite <- app_assoc. reflexivity.
  - intros f Hf. unfold after_turns. simpl. rewrite fold_delete_lookup.
    replace (existsb (fun g => String.eqb (temp_path R g) (temp_path R f))
               (processed (uploads request))) with true; [reflexivity|].
    symmetry. apply existsb_exists. exists f. split; [exact Hf|apply String.eqb_refl].
Qed.

(** C5, amended.  When the arg-max position of the output tensor is
    outside the 4 class labels, which takes a row of more than 4 scores,
    lines 99-100 yield the sentinel "Prediction index out of range."
    without raising, and the turn of the upload, once saved, records it
    under [predicted_class]. *)
Theorem out_of_range_position_gets_sentinel (preds : array2 (score R)) idx :
  pred_class_idx R preds = Returned idx ->
  (length class_labels <= idx)%nat ->
  interpret R preds = Returned "Prediction index out of range." /\
  (exists row rows, preds = Batch row rows /\ (4 < length row)%nat) /\
  forall f it rs w,
    nonempty_name f = true ->
    writable R (temp_path R f) = true ->
    fst (predict_bytes R it (stream f)) = Some preds ->
    upload_file R f it rs w =
      (Returned (snd (predict_bytes R it (stream f)),
                 rs ++ [JObject [("filename", JString (filename f));
                                 ("predicted_class", JString "Prediction index out of range.")]]),
       after_turns R [f] w).
Proof.
  intros Hidx Hout.
  assert (Hinterp : interpret R preds = Returned "Prediction index out of range.").
  { unfold interpret. rewrite Hidx. apply result_out_of_range. exact Hout. }
  split; [exact Hinterp|]. split.
  - destruct (pred_class_idx_first_row preds idx Hidx) as (row & rows & -> & Hrow).
    exists row, rows. split; [reflexivity|].
    apply np_argmax_range in Hrow. simpl in Hout. lia.
  - intros f it rs w Hname Hsave Hpreds.
    rewrite (upload_file_turn f it rs w Hname). unfold entry.
    rewrite Hsave, Hpreds, Hinterp. reflexivity.
Qed.

(** C6.  If [<=] on scores is a total preorder, the position read at line
    99 holds a maximum of the first row and every position holding a value
    that reaches the maximum is at or after it: among equal maxima the
    lowest index is selected, and line 100 looks up the label there. *)
Theorem argmax_selects_first_maximum (row : list (score R)) rows idx :
  total_preorder R ->
  pred_class_idx R (Batch row rows) = Returned idx ->
  exists m, nth_error row idx = Some m /\
    (forall j x, nth_error row j = Some x -> score_le R x m = true) /\
    (forall j x, nth_error row j = Some x -> score_le R m x = true -> (idx <= j)%nat) /\
    interpret R (Batch row rows) = result idx /\
    ((idx < 4)%nat -> exists label,
        nth_error class_labels idx = Some label /\ interpret R (Batch row rows) = Returned label).
Proof.
  intros [Htotal Htrans] Hidx.
  assert (Hinterp : interpret R (Batch row rows) = result idx).
  { unfold interpret. rewrite Hidx. reflexivity. }
  apply pred_class_idx_first_row in Hidx as (row' & rows' & Heq & Hrow).
  injection Heq as <- <-.
  destruct row as [|x rest]; [discriminate|]. simpl in Hrow. injection Hrow as Hscan.
  destruct (argmax_scan_first (score_le R) Htotal Htrans (x :: rest) rest 1 x 0)
    as (m & Hm & Hmax & Hfirst).
  - reflexivity.
  - intros j Hj. destruct j as [|j]; [lia|]. simpl. rewrite Nat.sub_0_r. reflexivity.
  - intros j y Hj Hy. assert (j = 0)%nat by lia. subst j. injection Hy as <-.
    destruct (Htotal x x); assumption.
  - intros j y Hj. lia.
  - rewrite Hscan in *. exists m. split; [exact Hm|]. split; [exact Hmax|]. split.
    + intros j y Hy Hle. destruct (Nat.lt_ge_cases j idx) as [Hlt|Hge]; [|exact Hge].
      rewrite (Hfirst j y Hlt Hy) in Hle. discriminate.
    + split; [exact Hinterp|]. intros Hlt.
      destruct (result_in_range idx Hlt) as (label & Hlabel & Hres).
      exists label. split; [exact Hlabel|]. rewrite Hinterp. exact Hres.
Qed.

(** C7.  A request with a [files] field whose upload list is empty or has
    only unnamed entries is answered 400 "At least one image file is
    required."; the world is left as it was: nothing is loaded, nothing is
    saved. *)
Theorem unnamed_uploads_rejected request w :
  dict_contains (req_files request) "files" = true ->
  uploads request = [] \/
    forallb (fun f => String.eqb (filename f) "") (uploads request) = true ->
  upload R request w =
    (Returned (mkResponse (JObject [("error", JString "At least one image file is required.")]) 400), w).
Proof.
  unfold uploads. intros Hfield Hnone. unfold upload. rewrite Hfield. cbn [negb].
  replace ((length (getlist (req_files request) "files") =? 0)%nat
           || forallb (fun f => String.eqb (filename f) "") (getlist (req_files request) "files"))
    with true; [reflexivity|].
  symmetry. destruct Hnone as [->| ->]; [reflexivity|apply orb_true_r].
Qed.

(** C8.  A request that passes the two checks on the uploads and whose
    [model] field is absent or names no registered model is answered 400
    "Invalid model selected."; the world is left as it was: nothing is
    loaded, no file is processed. *)
Theorem unregistered_model_rejected request w :
  dict_contains (req_files request) "files" = true ->
  uploads request <> [] ->
  forallb (fun f => String.eqb (filename f) "") (uploads request) = false ->
  (forall name, dict_get (req_form request) "model" = Some name ->
                dict_contains MODEL_PATHS name = false) ->
  upload R request w =
    (Returned (mkResponse (JObject [("error", JString "Invalid model selected.")]) 400), w).
Proof.
  unfold uploads. intros Hfield Hsome Hnamed Hmodel. unfold upload.
  rewrite Hfield, Hnamed. cbn [negb].
  destruct (getlist (req_files request) "files") as [|f rest] eqn:Hfiles; [congruence|].
  cbn [length Nat.eqb orb].
  destruct (dict_get (req_form request) "model") as [name|]; cbn [opt_contains].
  - rewrite (Hmodel name eq_refl). reflexivity.
  - reflexivity.
Qed.

(** C9.  On a deterministic inference backend, two served requests for the
    same registered model record the same outcome for uploads with the same
    bytes: the entries of the two uploads agree on the key
    ([predicted_class] or [error]) and on its value, whatever the position
    of the uploads, their names, the other uploads and the storage. *)
Theorem same_image_same_label req1 req2 w1 w2 r1 r2 w1' w2' k1 k2 f1 f2 :
  deterministic R ->
  passes_validation req1 = true ->
  passes_validation req2 = true ->
  dict_get (req_form req1) "model" = dict_get (req_form req2) "model" ->
  upload R req1 w1 = (Returned r1, w1') ->
  upload R req2 w2 = (Returned r2, w2') ->
  nth_error (processed (uploads req1)) k1 = Some f1 ->
  nth_error (processed (uploads req2)) k2 = Some f2 ->
  stream f1 = stream f2 ->
  exists rs1 rs2 key value,
    r1 = mkResponse (JObject [("results", JArray rs1)]) 200 /\
    r2 = mkResponse (JObject [("results", JArray rs2)]) 200 /\
    nth_error rs1 k1 = Some (JObject [("filename", JString (filename f1)); (key, JString value)]) /\
    nth_error rs2 k2 = Some (JObject [("filename", JString (filename f2)); (key, JString value)]).
Proof.
  intros Hdet Hval1 Hval2 Hmodel Hrun1 Hrun2 Hk1 Hk2 Hbytes.
  destruct (passes_validation_selected req1 Hval1) as (model_path & Hpath1).
  assert (Hpath2 : selected_path req2 = Some model_path).
  { unfold selected_path in *. rewrite <- Hmodel. exact Hpath1. }
  rewrite (upload_valid _ _ _ Hval1 Hpath1) in Hrun1.
  rewrite (upload_valid _ _ _ Hval2 Hpath2) in Hrun2.
  destruct (Interpreter R model_path) as [it0|] eqn:Hload; [|discriminate].
  destruct (upload_loop R (firstn 6 (uploads req1)) it0 []
              (mkWorld (fs w1) (log w1 ++ [EvLoad model_path]))) as [[rs1|ex1] u1] eqn:Hloop1;
    [|discriminate].
  destruct (upload_loop R (firstn 6 (uploads req2)) it0 []
              (mkWorld (fs w2) (log w2 ++ [EvLoad model_path]))) as [[rs2|ex2] u2] eqn:Hloop2;
    [|discriminate].
  injection Hrun1 as <- _. injection Hrun2 as <- _.
  apply upload_loop_returned in Hloop1 as (js1 & Hjs1 & -> & _).
  apply upload_loop_returned in Hloop2 as (js2 & Hjs2 & -> & _).
  pose proof (handle_fresh R model_path it0 Hload) as Hfresh.
  destruct (turns_handle model_path _ it0 k1 f1 Hfresh Hk1) as (it1 & Ht1 & Hh1).
  destruct (turns_handle model_path _ it0 k2 f2 Hfresh Hk2) as (it2 & Ht2 & Hh2).
  destruct (Forall2_nth_error _ _ _ _ _ (entries_turns _ _ _ Hjs1) Ht1) as (j1 & Hj1 & He1).
  destruct (Forall2_nth_error _ _ _ _ _ (entries_turns _ _ _ Hjs2) Ht2) as (j2 & Hj2 & He2).
  simpl in He1, He2.
  assert (Hsame : fst (predict_bytes R it1 (stream f1)) = fst (predict_bytes R it2 (stream f2))).
  { rewrite Hbytes. eapply predict_bytes_deterministic; eauto. }
  destruct (entry_same_prediction it1 it2 f1 f2 j1 j2 Hsame He1 He2) as (key & value & -> & ->).
  exists js1, js2, key, value. repeat split; assumption.
Qed.

(** C10.  The model is loaded only past the three checks, once, before
    anything is saved: a rejected request leaves the world untouched, and
    for a validated one the events of the request are one load followed by
    storage events only.  If the interpreter cannot be built the exception
    leaves the handler: there is no response, hence no entry, and storage
    is as it was, the load being the only event. *)
Theorem model_loaded_once_before_any_save request w :
  if passes_validation request then
    exists model_path evs,
      selected_path request = Some model_path /\
      log (snd (upload R request w)) = log w ++ EvLoad model_path :: evs /\
      forallb is_storage_event evs = true /\
      (Interpreter R model_path = None ->
       upload R request w =
         (Raised (InterpreterError model_path), mkWorld (fs w) (log w ++ [EvLoad model_path])))
  else snd (upload R request w) = w.
Proof.
  destruct (passes_validation request) eqn:Hval.
  - destruct (passes_validation_selected request Hval) as (model_path & Hpath).
    exists model_path. rewrite (upload_valid _ _ _ Hval Hpath).
    destruct (Interpreter R model_path) as [it0|].
    + pose proof (upload_loop_spec (firstn 6 (uploads request)) it0 []
                    (mkWorld (fs w) (log w ++ [EvLoad model_path]))) as Hloop.
      destruct (entries R it0 (List.filter nonempty_name (firstn 6 (uploads request)))) as [js|ex].
      * rewrite Hloop. eexists. split; [exact Hpath|]. split; [|split].
        -- unfold after_turns. simpl. rewrite <- app_assoc. reflexivity.
        -- apply turn_events_storage.
        -- discriminate.
      * destruct Hloop as (w1 & evs & -> & Hlog & Hevs).
        exists evs. split; [exact Hpath|]. split; [|split].
        -- simpl. rewrite Hlog. simpl. rewrite <- app_assoc. reflexivity.
        -- exact Hevs.
        -- discriminate.
    + exists []. split; [exact Hpath|]. split; [reflexivity|]. split; reflexivity.
  - destruct (upload_rejected request w Hval) as (message & ->). reflexivity.
Qed.

End Properties.

(** ** The toy runtime: facts used to run the theorems *)

Lemma toy_well_shaped : well_shaped toy.
Proof.
  intros it x. simpl. unfold toy_invoke.
  destruct x as [|b x]; [exact I|]. destruct b; simpl; auto.
Qed.

Lemma toy_deterministic : deterministic toy.
Proof.
  intros model_path it it' x _ _. simpl. unfold toy_invoke.
  destruct x as [|b x]; [reflexivity|]. destruct b; reflexivity.
Qed.

Lemma toy_total_preorder : total_preorder toy.
Proof.
  split; simpl.
  - intros a b. rewrite !Z.leb_le. lia.
  - intros a b c. rewrite !Z.leb_le. lia.
Qed.

(** ** The theorems at work on concrete requests *)

Lemma valid_request_one_entry_per_upload_witness :
  passes_validation three_files = true /\
  saves_ok toy (uploads three_files) = true /\
  exists results w',
    upload toy three_files empty_world =
      (Returned (mkResponse (JObject [("results", JArray results)]) 200), w') /\
    length results = length (uploads three_files) /\
    map (fun j => field j "filename") results =
      map (fun f => Some (filename f)) (uploads three_files).
Proof.
  split; [reflexivity|]. split; [reflexivity|].
  apply (valid_request_one_entry_per_upload toy three_files empty_world
           "models/EfficientB0.tflite" 0%nat).
  - reflexivity.
  - reflexivity.
  - simpl. lia.
  - reflexivity.
  - reflexivity.
  - reflexivity.
  - exact toy_well_shaped.
Defined.

(** C1 as stated fails: each of these requests passes the three checks
    with one named upload, and the handler raises instead of answering 200
    - at line 80 when the model artifact cannot be loaded, and at line 88
    when the upload is named "..": sanitizing leaves an empty name, the
    temporary path is the upload folder itself, and [f.save] cannot open a
    directory for writing. *)
Lemma valid_request_can_raise :
  (passes_validation one_file = true /\
   forallb nonempty_name (uploads one_file) = true /\
   length (uploads one_file) = 1%nat /\
   fst (upload toy_no_models one_file empty_world) =
     Raised (InterpreterError "models/MobileNetV2.tflite")) /\
  (passes_validation dots_file = true /\
   forallb nonempty_name (uploads dots_file) = true /\
   length (uploads dots_file) = 1%nat /\
   Interpreter toy "models/MobileNetV2.tflite" = Some 0%nat /\
   secure_filename toy ".." = "" /\
   fst (upload toy dots_file empty_world) = Raised (OSError "/srv/app/uploads/")).
Proof. repeat split; reflexivity. Qed.

Lemma more_than_six_uploads_witness :
  (6 < length (uploads seven_files))%nat /\
  exists results w',
    upload toy seven_files busy_world =
      (Returned (mkResponse (JObject [("results", JArray results)]) 200), w') /\
    map (fun j => field j "filename") results =
      map (fun f => Some (filename f)) (List.filter nonempty_name (firstn 6 (uploads seven_files))) /\
    log w' = log busy_world ++ EvLoad "models/NasNetMobile.tflite" ::
               flat_map (turn_events toy) (List.filter nonempty_name (firstn 6 (uploads seven_files))).
Proof.
  split; [simpl; lia|].
  apply (more_than_six_uploads toy seven_files busy_world "models/NasNetMobile.tflite" 0%nat).
  - reflexivity.
  - simpl. lia.
  - reflexivity.
  - reflexivity.
  - reflexivity.
  - exact toy_well_shaped.
Defined.

(** C2 as stated fails: of seven uploads the first is unnamed and the six
    others are named; the sixth named upload, f.png, is the seventh of the
    list and gets no entry, the unnamed one having taken a place among the
    six. *)
Lemma seven_uploads_sixth_named_dropped :
  length (uploads seven_files) = 7%nat /\
  map filename (firstn 6 (List.filter nonempty_name (uploads seven_files))) =
    ["a.png"; "b.png"; "c.png"; "d.png"; "e.png"; "f.png"] /\
  fst (upload toy seven_files empty_world) =
    Returned (mkResponse (JObject [("results", JArray [
      JObject [("filename", JString "a.png"); ("predicted_class", JString "PreB")];
      JObject [("filename", JString "b.png"); ("predicted_class", JString "EarlyPreB")];
      JObject [("filename", JString "c.png"); ("predicted_class", JString "PreB")];
      JObject [("filename", JString "d.png"); ("predicted_class", JString "EarlyPreB")];
      JObject [("filename", JString "e.png"); ("predicted_class", JString "PreB")]])]) 200).
Proof. repeat split; reflexivity. Qed.

Lemma saved_uploads_removed_before_response_witness :
  upload toy three_files busy_world = (Returned three_files_response, three_files_world) /\
  exists evs, log three_files_world = log busy_world ++ evs /\
    forall p, In (EvSave p) evs ->
      fs three_files_world !! p = None /\
      exists before after, evs = before ++ EvSave p :: EvRemove p :: after.
Proof.
  split; [reflexivity|].
  apply (saved_uploads_removed_before_response toy three_files busy_world three_files_response).
  reflexivity.
Defined.

Lemma failed_prediction_recorded_witness :
  fst (predict_bytes toy 1%nat (stream (mkFile "broken.png" []))) = None /\
  saves_ok toy (processed (uploads three_files)) = true /\
  exists results w',
    upload toy three_files empty_world =
      (Returned (mkResponse (JObject [("results", JArray results)]) 200), w') /\
    Forall2 (fun t e =>
               match fst (predict_bytes toy (fst t) (stream (snd t))) with
               | None =>
                   e = JObject [("filename", JString (filename (snd t)));
                                ("error", JString "Prediction failed.")]
               | Some preds =>
                   exists label, interpret toy preds = Returned label /\
                     e = JObject [("filename", JString (filename (snd t)));
                                  ("predicted_class", JString label)]
               end)
            (turns toy 0%nat (processed (uploads three_files))) results /\
    log w' = log empty_world ++ EvLoad "models/EfficientB0.tflite" ::
               flat_map (turn_events toy) (processed (uploads three_files)) /\
    forall f, In f (processed (uploads three_files)) -> fs w' !! temp_path toy f = None.
Proof.
  split; [reflexivity|]. split; [reflexivity|].
  apply (failed_prediction_recorded toy three_files empty_world
           "models/EfficientB0.tflite" 0%nat).
  - reflexivity.
  - reflexivity.
  - reflexivity.
  - reflexivity.
  - exact toy_well_shaped.
Defined.

(** C4 as stated fails: the first upload does not decode and its failure
    is recorded, its turn ending with the removal; the second upload is
    named "..", the save of line 88 raises, and the request is not
    answered 200. *)
Lemma failed_prediction_then_unsavable_upload :
  passes_validation broken_then_dots = true /\
  processed (uploads broken_then_dots) = [mkFile "broken.png" []; mkFile ".." scores_a] /\
  fst (predict_bytes toy 0%nat (stream (mkFile "broken.png" []))) = None /\
  Interpreter toy "models/EfficientB0.tflite" = Some 0%nat /\
  fst (upload toy broken_then_dots empty_world) = Raised (OSError "/srv/app/uploads/") /\
  log (snd (upload toy broken_then_dots empty_world)) =
    [EvLoad "models/EfficientB0.tflite";
     EvSave "/srv/app/uploads/broken.png"; EvRemove "/srv/app/uploads/broken.png"].
Proof. repeat split; reflexivity. Qed.

Lemma out_of_range_position_gets_sentinel_witness :
  pred_class_idx toy (Batch [1; 2; 3; 4; 5; 6]%Z []) = Returned 5%nat /\
  interpret toy (Batch [1; 2; 3; 4; 5; 6]%Z []) = Returned "Prediction index out of range." /\
  upload_file toy (mkFile "long.png" scores_long) 0%nat [] empty_world =
    (Returned (1%nat, [JObject [("filename", JString "long.png");
                              ("predicted_class", JString "Prediction index out of range.")]]),
     after_turns toy [mkFile "long.png" scores_long] empty_world).
Proof.
  split; [reflexivity|].
  destruct (out_of_range_position_gets_sentinel toy (Batch [1; 2; 3; 4; 5; 6]%Z []) 5%nat)
    as (Hlabel & _ & Hturn).
  - reflexivity.
  - simpl. lia.
  - split; [exact Hlabel|].
    apply (Hturn (mkFile "long.png" scores_long) 0%nat [] empty_world); reflexivity.
Defined.

(** C5 as stated fails on vectors shorter than the label set: the arg-max
    of a row of two scores lies inside the labels and a label comes back,
    not the sentinel; a row without scores makes line 99 raise. *)
Lemma short_vector_gets_label_or_raises :
  (length [1; 2]%Z < length class_labels)%nat /\
  interpret toy (Batch [1; 2]%Z []) = Returned "PreB" /\
  (length (@nil Z) < length class_labels)%nat /\
  interpret toy (Batch [] []) =
    Raised (ValueError "attempt to get argmax of an empty sequence").
Proof. repeat split; simpl; lia. Qed.

Lemma argmax_selects_first_maximum_witness :
  total_preorder toy /\
  pred_class_idx toy (Batch [3; 7; 7; 1]%Z []) = Returned 1%nat /\
  exists m, nth_error [3; 7; 7; 1]%Z 1 = Some m /\
    (forall j x, nth_error [3; 7; 7; 1]%Z j = Some x -> Z.leb x m = true) /\
    (forall j x, nth_error [3; 7; 7; 1]%Z j = Some x -> Z.leb m x = true -> (1 <= j)%nat) /\
    interpret toy (Batch [3; 7; 7; 1]%Z []) = result 1 /\
    ((1 < 4)%nat -> exists label,
        nth_error class_labels 1 = Some label /\ interpret toy (Batch [3; 7; 7; 1]%Z []) = Returned label).
Proof.
  split; [exact toy_total_preorder|]. split; [reflexivity|].
  apply (argmax_selects_first_maximum toy [3; 7; 7; 1]%Z [] 1%nat).
  - exact toy_total_preorder.
  - reflexivity.
Defined.

Lemma unnamed_uploads_rejected_witness :
  dict_contains (req_files no_names) "files" = true /\
  forallb (fun f => String.eqb (filename f) "") (uploads no_names) = true /\
  upload toy no_names busy_world =
    (Returned (mkResponse (JObject [("error", JString "At least one image file is required.")]) 400),
     busy_world).
Proof.
  split; [reflexivity|]. split; [reflexivity|].
  apply (unnamed_uploads_rejected toy no_names busy_world).
  - reflexivity.
  - right. reflexivity.
Defined.

Lemma unregistered_model_rejected_witness :
  dict_get (req_form unknown_model) "model" = Some "ResNet50" /\
  dict_contains MODEL_PATHS "ResNet50" = false /\
  upload toy unknown_model busy_world =
    (Returned (mkResponse (JObject [("error", JString "Invalid model selected.")]) 400),
     busy_world).
Proof.
  split; [reflexivity|]. split; [reflexivity|].
  apply (unregistered_model_rejected toy unknown_model busy_world).
  - reflexivity.
  - discriminate.
  - reflexivity.
  - intros name Hname. injection Hname as <-. reflexivity.
Defined.

(** The same check rejects a request without a [model] field. *)
Example absent_model_rejected :
  upload toy no_model_field empty_world =
    (Returned (mkResponse (JObject [("error", JString "Invalid model selected.")]) 400),
     empty_world).
Proof. reflexivity. Qed.

Lemma same_image_same_label_witness :
  fst (upload toy one_file empty_world) = Returned one_file_response /\
  fst (upload toy two_files busy_world) = Returned two_files_response /\
  stream (mkFile "a.png" scores_a) = stream (mkFile "again.png" scores_a) /\
  exists rs1 rs2 key value,
    one_file_response = mkResponse (JObject [("results", JArray rs1)]) 200 /\
    two_files_response = mkResponse (JObject [("results", JArray rs2)]) 200 /\
    nth_error rs1 0 = Some (JObject [("filename", JString "a.png"); (key, JString value)]) /\
    nth_error rs2 1 = Some (JObject [("filename", JString "again.png"); (key, JString value)]).
Proof.
  split; [reflexivity|]. split; [reflexivity|]. split; [reflexivity|].
  apply (same_image_same_label toy one_file two_files empty_world busy_world
           one_file_response two_files_response
           (snd (upload toy one_file empty_world)) (snd (upload toy two_files busy_world))
           0%nat 1%nat (mkFile "a.png" scores_a) (mkFile "again.png" scores_a)).
  - exact toy_deterministic.
  - reflexivity.
  - reflexivity.
  - reflexivity.
  - reflexivity.
  - reflexivity.
  - reflexivity.
  - reflexivity.
  - reflexivity.
Defined.

Lemma model_loaded_once_before_any_save_witness :
  passes_validation one_file = true /\
  exists model_path evs,
    selected_path one_file = Some model_path /\
    log (snd (upload toy_no_models one_file busy_world)) =
      log busy_world ++ EvLoad model_path :: evs /\
    forallb is_storage_event evs = true /\
    (Interpreter toy_no_models model_path = None ->
     upload toy_no_models one_file busy_world =
       (Raised (InterpreterError model_path),
        mkWorld (fs busy_world) (log busy_world ++ [EvLoad model_path]))).
Proof.
  split; [reflexivity|].
  exact (model_loaded_once_before_any_save toy_no_models one_file busy_world).
Defined.

(** * Further properties of the module *)

Section Coverage.
Context (R : Runtime).

(** ** What a turn can raise *)

Lemma argmax_rows_raised {A} (le : A -> A -> bool) (rows : list (list A)) ex :
  argmax_rows le rows = Raised ex -> ex = argmax_empty /\ In [] rows.
Proof.
  induction rows as [|row rows IH]; simpl; [discriminate|].
  destruct row as [|x rest]; simpl.
  - intros H. injection H as <-. split; [reflexivity|left; reflexivity].
  - destruct (argmax_rows le rows) as [idxs|e]; [discriminate|].
    intros H. injection H as <-. destruct (IH eq_refl) as [-> Hin]. split; [reflexivity|].
    right. exact Hin.
Qed.

Lemma argmax_rows_empty_row {A} (le : A -> A -> bool) (rows : list (list A)) :
  In [] rows -> argmax_rows le rows = Raised argmax_empty.
Proof.
  induction rows as [|row rows IH]; simpl; [tauto|].
  intros [->|Hin]; [reflexivity|].
  destruct row as [|x rest]; [reflexivity|]. simpl. rewrite (IH Hin). reflexivity.
Qed.

Lemma pred_class_idx_raised (preds : array2 (score R)) ex :
  pred_class_idx R preds = Raised ex -> ex = argmax_empty \/ ex = no_first_row.
Proof.
  unfold pred_class_idx, np_argmax_axis1. destruct preds as [row rows|columns].
  - destruct (argmax_rows (score_le R) (row :: rows)) as [idxs|e] eqn:Hrows.
    + destruct idxs as [|i idxs]; simpl; [|discriminate].
      intros H. injection H as <-. right. reflexivity.
    + intros H. injection H as <-.
      destruct (argmax_rows_raised _ _ _ Hrows) as [-> _]. left. reflexivity.
  - destruct (columns =? 0)%nat; simpl; intros H; injection H as <-; auto.
Qed.

Lemma interpret_raised (preds : array2 (score R)) ex :
  interpret R preds = Raised ex -> ex = argmax_empty \/ ex = no_first_row.
Proof.
  unfold interpret. destruct (pred_class_idx R preds) as [idx|e] eqn:Hidx.
  - destruct (result_total idx) as (label & ->). discriminate.
  - intros H. injection H as <-. eapply pred_class_idx_raised. exact Hidx.
Qed.

(** A turn raises at line 88, when the upload cannot be saved, or at line
    99, after the save. *)
Lemma entry_raised it f ex :
  entry R it f = Raised ex ->
  (writable R (temp_path R f) = false /\ ex = OSError (temp_path R f)) \/
  (writable R (temp_path R f) = true /\ (ex = argmax_empty \/ ex = no_first_row)).
Proof.
  unfold entry. destruct (writable R (temp_path R f)).
  - destruct (fst (predict_bytes R it (stream f))) as [preds|]; [|discriminate].
    destruct (interpret R preds) as [label|e] eqn:Hint; [discriminate|].
    intros H. injection H as <-. right. split; [reflexivity|].
    eapply interpret_raised. exact Hint.
  - intros H. injection H as <-. left. split; reflexivity.
Qed.

Lemma entries_raised files it ex :
  entries R it files = Raised ex ->
  (exists f, In f files /\ writable R (temp_path R f) = false /\
             ex = OSError (temp_path R f)) \/
  ex = argmax_empty \/ ex = no_first_row.
Proof.
  revert it. induction files as [|f rest IH]; intros it; simpl; [discriminate|].
  destruct (entry R it f) as [j|e] eqn:Hentry.
  - destruct (entries R (snd (predict_bytes R it (stream f))) rest) as [js|e] eqn:Hrest;
      [discriminate|].
    intros H. injection H as <-.
    destruct (IH _ Hrest) as [(g & Hg & Hsave & Hex)|Hex]; [|right; exact Hex].
    left. exists g. split; [right; exact Hg|]. split; assumption.
  - intros H. injection H as <-.
    destruct (entry_raised _ _ _ Hentry) as [[Hsave Hex]|[_ Hex]]; [|right; exact Hex].
    left. exists f. split; [left; reflexivity|]. split; assumption.
Qed.

(** ** The outcome of the loop and of the handler *)

Lemma upload_loop_outcome files it rs w :
  fst (upload_loop R files it rs w) =
    match entries R it (List.filter nonempty_name files) with
    | Returned js => Returned (rs ++ js)
    | Raised ex => Raised ex
    end.
Proof.
  pose proof (upload_loop_spec R files it rs w) as Hspec.
  destruct (entries R it (List.filter nonempty_name files)) as [js|ex].
  - rewrite Hspec. reflexivity.
  - destruct Hspec as (w' & evs & -> & _). reflexivity.
Qed.

Lemma upload_outcome request w model_path :
  passes_validation request = true ->
  selected_path request = Some model_path ->
  fst (upload R request w) =
    match Interpreter R model_path with
    | None => Raised (InterpreterError model_path)
    | Some it =>
        match entries R it (processed (uploads request)) with
        | Returned js => Returned (results_response js)
        | Raised ex => Raised ex
        end
    end.
Proof.
  intros Hval Hpath. rewrite (upload_valid R _ _ _ Hval Hpath).
  destruct (Interpreter R model_path) as [it|]; [|reflexivity].
  pose proof (upload_loop_outcome (firstn 6 (uploads request)) it []
                (mkWorld (fs w) (log w ++ [EvLoad model_path]))) as Hout.
  unfold processed.
  destruct (upload_loop R (firstn 6 (uploads request)) it []
              (mkWorld (fs w) (log w ++ [EvLoad model_path]))) as [[rs|ex] w1];
    destruct (entries R it (List.filter nonempty_name (firstn 6 (uploads request)))) as [js|ex'];
    simpl in Hout; try discriminate; injection Hout as ->; reflexivity.
Qed.

(** Where the loop stands when it raises: the turns before the offending
    file are complete, and the turn of that file was interrupted at the
    save or after it. *)
Lemma upload_loop_raised files it rs w ex w' :
  upload_loop R files it rs w = (Raised ex, w') ->
  exists done f rest,
    List.filter nonempty_name files = done ++ f :: rest /\
    w' = interrupted_turn R f (after_turns R done w) /\
    ((writable R (temp_path R f) = false /\ ex = OSError (temp_path R f)) \/
     (writable R (temp_path R f) = true /\ (ex = argmax_empty \/ ex = no_first_row))).
Proof.
  revert it rs w w'. induction files as [|f rest IH]; intros it rs w w'; simpl.
  - discriminate.
  - destruct (nonempty_name f) eqn:Hname.
    + unfold bind. rewrite (upload_file_turn R f it rs w Hname).
      destruct (entry R it f) as [j|e] eqn:Hentry.
      * simpl. intros Hrun. apply IH in Hrun as (done & g & rest' & Heq & Hw' & Hex).
        exists (f :: done), g, rest'. split; [rewrite Heq; reflexivity|]. split; [|exact Hex].
        rewrite Hw', (after_turns_cons R f done w). reflexivity.
      * intros Hrun. injection Hrun as <- <-.
        exists [], f, (List.filter nonempty_name rest). split; [reflexivity|]. split.
        -- rewrite after_turns_nil. reflexivity.
        -- eapply entry_raised. exact Hentry.
    + unfold bind. rewrite upload_file_skip.
      * simpl. apply IH.
      * unfold nonempty_name in Hname. apply negb_false_iff in Hname.
        apply String.eqb_eq. exact Hname.
Qed.

Lemma after_turns_log files w :
  log (after_turns R files w) = log w ++ flat_map (turn_events R) files.
Proof. reflexivity. Qed.

Lemma filter_length_le {A} (p : A -> bool) (l : list A) :
  (length (List.filter p l) <= length l)%nat.
Proof. induction l as [|x l IH]; simpl; [lia|]. destruct (p x); simpl; lia. Qed.

Lemma filter_all_false {A} (p : A -> bool) (l : list A) :
  forallb (fun x => negb (p x)) l = true -> List.filter p l = [].
Proof.
  induction l as [|x l IH]; simpl; [reflexivity|].
  intros H. apply andb_true_iff in H as [Hx Hl].
  apply negb_true_iff in Hx. rewrite Hx. apply IH. exact Hl.
Qed.

Lemma result_label idx label :
  result idx = Returned label -> In label class_labels \/ label = out_of_range_label.
Proof.
  destruct (Nat.lt_ge_cases idx 4) as [Hlt|Hge].
  - destruct (result_in_range idx Hlt) as (l & Hnth & ->). intros H. injection H as <-.
    left. eapply nth_error_In. exact Hnth.
  - rewrite (result_out_of_range idx Hge). intros H. injection H as <-. right. reflexivity.
Qed.

Lemma entries_shapes files it js :
  entries R it files = Returned js ->
  Forall (fun e => exists f, In f files /\
            (e = failed_entry f \/
             exists label, (In label class_labels \/ label = out_of_range_label) /\
                           e = predicted_entry f label)) js.
Proof.
  revert it js. induction files as [|f rest IH]; intros it js; simpl.
  - intros H. injection H as <-. constructor.
  - destruct (entry R it f) as [j|] eqn:Hj; [|discriminate].
    destruct (entries R (snd (predict_bytes R it (stream f))) rest) as [js'|] eqn:Hrest;
      [|discriminate].
    intros H. injection H as <-. constructor.
    + exists f. split; [left; reflexivity|]. unfold entry in Hj.
      destruct (writable R (temp_path R f)); [|discriminate].
      destruct (fst (predict_bytes R it (stream f))) as [preds|].
      * unfold interpret in Hj. destruct (pred_class_idx R preds) as [idx|]; [|discriminate].
        destruct (result idx) as [label|] eqn:Hres; [|discriminate].
        injection Hj as <-. right. exists label. split; [|reflexivity].
        eapply result_label. exact Hres.
      * injection Hj as <-. left. reflexivity.
    + eapply List.Forall_impl; [|eapply IH; exact Hrest].
      intros e (g & Hg & He). exists g. split; [right; exact Hg|exact He].
Qed.


Lemma dict_get_missing {V} (d : list (string * V)) name :
  dict_contains d name = false -> dict_get d name = None.
Proof.
  unfold dict_contains. induction d as [|[k v] d IH]; simpl; [reflexivity|].
  destruct (String.eqb k name); simpl; [discriminate|exact IH].
Qed.

(** ** Paths *)

Lemma append_empty (x y : string) : (x ++ y)%string = "" -> y = "".
Proof. destruct x; simpl; [tauto|discriminate]. Qed.

Lemma ends_with_slash_append (x y : string) :
  y <> "" -> ends_with_slash (x ++ y) = ends_with_slash y.
Proof.
  intros Hy. induction x as [|c x IH]; [reflexivity|].
  change (String c x ++ y)%string with (String c (x ++ y)).
  destruct (x ++ y)%string as [|c' rest] eqn:Hxy.
  - apply append_empty in Hxy. contradiction.
  - rewrite <- IH. reflexivity.
Qed.

Lemma append_cancel (x y z : string) : (x ++ y)%string = (x ++ z)%string -> y = z.
Proof. induction x as [|c x IH]; simpl; [tauto|]. intros H. injection H as H. auto. Qed.

Lemma UPLOAD_FOLDER_shape :
  String.eqb (UPLOAD_FOLDER R) "" = false /\ ends_with_slash (UPLOAD_FOLDER R) = false.
Proof.
  unfold UPLOAD_FOLDER, path_join. cbn [starts_with_slash Ascii.eqb Bool.eqb].
  destruct (String.eqb (app_dir R) "" || ends_with_slash (app_dir R)).
  - split.
    + apply String.eqb_neq. intros H. apply append_empty in H. discriminate.
    + rewrite ends_with_slash_append by discriminate. reflexivity.
  - split.
    + apply String.eqb_neq. intros H. apply append_empty in H. discriminate.
    + rewrite ends_with_slash_append by discriminate. reflexivity.
Qed.

Lemma temp_path_relative f :
  starts_with_slash (secure_filename R (filename f)) = false ->
  temp_path R f = (UPLOAD_FOLDER R ++ "/" ++ secure_filename R (filename f))%string.
Proof.
  intros Hrel. unfold temp_path, path_join. rewrite Hrel.
  destruct UPLOAD_FOLDER_shape as [-> ->]. reflexivity.
Qed.

(** ** The checks of [upload] *)

(** X1.  A request without a [files] field is answered 400 "No file
    part." whatever else it carries, and the world is left as it was
    (lines 68-69). *)
Theorem missing_files_field_rejected request w :
  dict_contains (req_files request) "files" = false ->
  upload R request w =
    (Returned (mkResponse (JObject [("error", JString "No file part.")]) 400), w).
Proof. intros H. unfold upload. rewrite H. reflexivity. Qed.


(** X3.  What [upload] returns or raises does not depend on the world it
    runs in: a file already on storage, even under the name of an upload,
    never reaches the prediction, since each turn reads what it has just
    written. *)
Theorem outcome_independent_of_world request w1 w2 :
  fst (upload R request w1) = fst (upload R request w2).
Proof.
  destruct (passes_validation request) eqn:Hval.
  - destruct (passes_validation_selected request Hval) as (model_path & Hpath).
    rewrite (upload_outcome request w1 model_path Hval Hpath).
    rewrite (upload_outcome request w2 model_path Hval Hpath). reflexivity.
  - unfold passes_validation, uploads in Hval. unfold upload.
    destruct (dict_contains (req_files request) "files"); cbn [negb andb] in *; [|reflexivity].
    destruct ((length (getlist (req_files request) "files") =? 0)%nat
              || forallb (fun f => String.eqb (filename f) "")
                   (getlist (req_files request) "files")); cbn [negb andb] in *; [reflexivity|].
    rewrite Hval. reflexivity.
Qed.

(** X4.  Storage after a response: a path is absent if the request passed
    the checks and the path is the temporary path of a processed upload -
    also when a file was there before the request - and holds what it held
    before otherwise. *)
Theorem storage_after_response request w response w' :
  upload R request w = (Returned response, w') ->
  forall p,
    fs w' !! p =
      if passes_validation request
         && existsb (fun f => String.eqb (temp_path R f) p) (processed (uploads request))
      then None else fs w !! p.
Proof.
  intros Hrun p. destruct (passes_validation request) eqn:Hval; cbn [andb].
  - destruct (passes_validation_selected request Hval) as (model_path & Hpath).
    rewrite (upload_valid R _ _ _ Hval Hpath) in Hrun.
    destruct (Interpreter R model_path) as [it0|]; [|discriminate].
    destruct (upload_loop R (firstn 6 (uploads request)) it0 []
                (mkWorld (fs w) (log w ++ [EvLoad model_path]))) as [[rs|ex] w1] eqn:Hloop;
      [|discriminate].
    injection Hrun as _ <-.
    apply upload_loop_returned in Hloop as (js & _ & _ & ->).
    unfold after_turns, processed. cbn [fs]. apply fold_delete_lookup.
  - destruct (upload_rejected R request w Hval) as (message & Hrej).
    rewrite Hrej in Hrun. injection Hrun as _ <-. reflexivity.
Qed.

(** ** Exceptions *)

(** X5.  Only four exceptions leave [upload]: the interpreter of the
    selected model cannot be built (line 80), a processed upload cannot be
    saved at its temporary path (line 88), or line 99 raises on an output
    tensor with a row without scores, or without rows.  In particular the
    [ValueError] of [load_model], the [IndexError] of the list access at
    line 100 and the [FileNotFoundError] of [os.remove] never do. *)
Theorem exceptions_leaving_upload request w ex w' :
  upload R request w = (Raised ex, w') ->
  (exists model_path, selected_path request = Some model_path /\
     Interpreter R model_path = None /\ ex = InterpreterError model_path) \/
  (exists f, In f (processed (uploads request)) /\
     writable R (temp_path R f) = false /\ ex = OSError (temp_path R f)) \/
  ex = ValueError "attempt to get argmax of an empty sequence" \/
  ex = IndexError "index 0 is out of bounds for axis 0 with size 0".
Proof.
  intros Hrun. destruct (passes_validation request) eqn:Hval.
  - destruct (passes_validation_selected request Hval) as (model_path & Hpath).
    pose proof (upload_outcome request w model_path Hval Hpath) as Hout.
    rewrite Hrun in Hout. cbn [fst] in Hout.
    destruct (Interpreter R model_path) as [it|] eqn:Hload.
    + destruct (entries R it (processed (uploads request))) as [js|e] eqn:Hentries;
        [discriminate|].
      injection Hout as ->. right. exact (entries_raised _ _ _ Hentries).
    + injection Hout as ->. left. eauto.
  - destruct (upload_rejected R request w Hval) as (message & Hrej).
    rewrite Hrej in Hrun. discriminate.
Qed.

(** X6.  When line 99 raises, the upload of that turn stays behind: it has
    been saved (the save is the last event of the request) and is still on
    storage with its content, the removal of lines 95 and 104 being skipped
    by the exception. *)
Theorem raise_at_line_99_leaves_the_upload request w ex w' :
  upload R request w = (Raised ex, w') ->
  ex = ValueError "attempt to get argmax of an empty sequence" \/
    ex = IndexError "index 0 is out of bounds for axis 0 with size 0" ->
  exists f evs,
    In f (processed (uploads request)) /\
    fs w' !! temp_path R f = Some (stream f) /\
    log w' = log w ++ evs ++ [EvSave (temp_path R f)].
Proof.
  intros Hrun Hex. destruct (passes_validation request) eqn:Hval.
  - destruct (passes_validation_selected request Hval) as (model_path & Hpath).
    rewrite (upload_valid R _ _ _ Hval Hpath) in Hrun.
    destruct (Interpreter R model_path) as [it0|].
    + destruct (upload_loop R (firstn 6 (uploads request)) it0 []
                  (mkWorld (fs w) (log w ++ [EvLoad model_path]))) as [[rs|e] w1] eqn:Hloop;
        [discriminate|].
      injection Hrun as <- <-.
      apply upload_loop_raised in Hloop as (done & f & rest & Hfiles & -> & Hwhy).
      destruct Hwhy as [[_ ->]|[Hsave _]]; [destruct Hex; discriminate|].
      unfold interrupted_turn. rewrite Hsave.
      exists f, (EvLoad model_path :: flat_map (turn_events R) done). split; [|split].
      * unfold processed. rewrite Hfiles. apply in_or_app. right. left. reflexivity.
      * cbn [fs]. apply lookup_insert_eq.
      * cbn [log]. rewrite after_turns_log. cbn [log].
        rewrite <- !app_assoc. reflexivity.
    + injection Hrun as <- _. destruct Hex; discriminate.
  - destruct (upload_rejected R request w Hval) as (message & Hrej).
    rewrite Hrej in Hrun. discriminate.
Qed.

(** ** The results list *)

(** X7.  A response to a validated request has one entry per named upload
    among the first six, hence never more than six entries and never more
    than there are uploads. *)
Theorem at_most_six_entries request w response w' :
  upload R request w = (Returned response, w') ->
  passes_validation request = true ->
  exists results,
    response = mkResponse (JObject [("results", JArray results)]) 200 /\
    length results = length (processed (uploads request)) /\
    (length results <= 6)%nat /\
    (length results <= length (uploads request))%nat.
Proof.
  intros Hrun Hval.
  destruct (passes_validation_selected request Hval) as (model_path & Hpath).
  pose proof (upload_outcome request w model_path Hval Hpath) as Hout.
  rewrite Hrun in Hout. cbn [fst] in Hout.
  destruct (Interpreter R model_path) as [it|]; [|discriminate].
  destruct (entries R it (processed (uploads request))) as [js|e] eqn:Hentries;
    [|discriminate].
  injection Hout as ->. exists js. split; [reflexivity|].
  apply entries_length in Hentries. rewrite Hentries. split; [reflexivity|].
  unfold processed.
  pose proof (filter_length_le nonempty_name (firstn 6 (uploads request))) as Hfilter.
  pose proof (firstn_le_length 6 (uploads request)) as Hfirst.
  pose proof (length_firstn 6 (uploads request)) as Hmin.
  split; lia.
Qed.

(** X8.  Every entry of a response belongs to a named upload among the
    first six and is either the failure entry of that upload or a
    [predicted_class] entry whose value is one of the four class labels or
    the out-of-range sentinel: the field is always a string of that set. *)
Theorem entries_are_labels_or_failures request w response w' :
  upload R request w = (Returned response, w') ->
  passes_validation request = true ->
  exists results,
    response = mkResponse (JObject [("results", JArray results)]) 200 /\
    Forall (fun e => exists f,
              In f (firstn 6 (uploads request)) /\ filename f <> "" /\
              (e = JObject [("filename", JString (filename f));
                            ("error", JString "Prediction failed.")] \/
               exists label,
                 (In label class_labels \/ label = "Prediction index out of range.") /\
                 e = JObject [("filename", JString (filename f));
                              ("predicted_class", JString label)])) results.
Proof.
  intros Hrun Hval.
  destruct (passes_validation_selected request Hval) as (model_path & Hpath).
  pose proof (upload_outcome request w model_path Hval Hpath) as Hout.
  rewrite Hrun in Hout. cbn [fst] in Hout.
  destruct (Interpreter R model_path) as [it|]; [|discriminate].
  destruct (entries R it (processed (uploads request))) as [js|e] eqn:Hentries;
    [|discriminate].
  injection Hout as ->. exists js. split; [reflexivity|].
  eapply List.Forall_impl; [|eapply entries_shapes; exact Hentries].
  intros e (f & Hf & He). exists f. unfold processed in Hf.
  apply filter_In in Hf as [Hf Hname]. split; [exact Hf|]. split; [|exact He].
  unfold nonempty_name in Hname. apply negb_true_iff in Hname.
  apply String.eqb_neq. exact Hname.
Qed.

(** X9.  A validated request whose first six uploads are all unnamed - its
    named uploads come later in the list - is answered 200 with an empty
    results list: the model is loaded, and nothing is saved. *)
Theorem unnamed_first_six_gives_empty_results request w model_path it0 :
  passes_validation request = true ->
  forallb (fun f => String.eqb (filename f) "") (firstn 6 (uploads request)) = true ->
  selected_path request = Some model_path ->
  Interpreter R model_path = Some it0 ->
  upload R request w =
    (Returned (mkResponse (JObject [("results", JArray [])]) 200),
     mkWorld (fs w) (log w ++ [EvLoad model_path])).
Proof.
  intros Hval Hunnamed Hpath Hload.
  rewrite (upload_valid R _ _ _ Hval Hpath), Hload.
  pose proof (upload_loop_spec R (firstn 6 (uploads request)) it0 []
                (mkWorld (fs w) (log w ++ [EvLoad model_path]))) as Hloop.
  assert (Hnone : List.filter nonempty_name (firstn 6 (uploads request)) = []).
  { apply filter_all_false. revert Hunnamed.
    generalize (firstn 6 (uploads request)). intros l.
    induction l as [|f l IH]; simpl; [reflexivity|].
    intros H. apply andb_true_iff in H as [Hf Hl].
    unfold nonempty_name at 1. rewrite Hf. simpl. apply IH. exact Hl. }
  rewrite Hnone in Hloop. simpl in Hloop. rewrite Hloop, after_turns_nil. reflexivity.
Qed.

(** ** Lines 99 and 100 *)

(** X10.  Line 99 succeeds exactly on an output tensor that has a first row
    and no row without scores, and the position it reads lies inside the
    first row.  On a tensor without columns it raises [ValueError], rows or
    not, since the arg-max checks the reduced axis first; on a tensor
    without rows but with columns it raises [IndexError] at the [[0]]. *)
Theorem line_99_raises_on_degenerate_shapes (preds : array2 (score R)) :
  (shape_ok R preds = true ->
   exists idx row rows, preds = Batch row rows /\
     pred_class_idx R preds = Returned idx /\ (idx < length row)%nat) /\
  (shape_ok R preds = false ->
   (exists columns, preds = NoRows columns) \/
   (exists row rows, preds = Batch row rows /\ In [] (row :: rows))) /\
  (forall columns, preds = NoRows columns ->
   pred_class_idx R preds =
     Raised (if (columns =? 0)%nat
             then ValueError "attempt to get argmax of an empty sequence"
             else IndexError "index 0 is out of bounds for axis 0 with size 0")) /\
  (forall row rows, preds = Batch row rows -> In [] (row :: rows) ->
   pred_class_idx R preds =
     Raised (ValueError "attempt to get argmax of an empty sequence")).
Proof.
  split; [|split; [|split]].
  - intros Hshape. destruct (pred_class_idx_shape_ok R preds Hshape) as (idx & Hidx).
    destruct (pred_class_idx_first_row R preds idx Hidx) as (row & rows & -> & Hrow).
    exists idx, row, rows. split; [reflexivity|]. split; [exact Hidx|].
    eapply np_argmax_range. exact Hrow.
  - unfold shape_ok. intros Hshape. destruct preds as [row rows|columns]; [|left; eauto].
    right. exists row, rows. split; [reflexivity|].
    induction (row :: rows) as [|r rs IH]; simpl in Hshape; [discriminate|].
    destruct r as [|x r]; [left; reflexivity|]. right. apply IH. exact Hshape.
  - intros columns ->. unfold pred_class_idx, np_argmax_axis1.
    destruct (columns =? 0)%nat; reflexivity.
  - intros row rows -> Hin. unfold pred_class_idx, np_argmax_axis1.
    rewrite (argmax_rows_empty_row (score_le R) (row :: rows) Hin). reflexivity.
Qed.

(** X11.  An output tensor with at most as many scores per row as there are
    class labels always gets one of the four labels: the sentinel is out of
    reach when the model and the label set agree in width. *)
Theorem narrow_output_always_labelled (row : list (score R)) rows :
  shape_ok R (Batch row rows) = true ->
  (length row <= length class_labels)%nat ->
  exists label, In label class_labels /\ interpret R (Batch row rows) = Returned label.
Proof.
  intros Hshape Hwidth.
  destruct (pred_class_idx_shape_ok R _ Hshape) as (idx & Hidx).
  destruct (pred_class_idx_first_row R _ idx Hidx) as (row' & rows' & Heq & Hrow).
  injection Heq as <- <-. apply np_argmax_range in Hrow.
  assert (Hlt : (idx < 4)%nat) by (simpl in Hwidth; lia).
  destruct (result_in_range idx Hlt) as (label & Hnth & Hres).
  exists label. split; [eapply nth_error_In; exact Hnth|].
  unfold interpret. rewrite Hidx. exact Hres.
Qed.

(** ** The registry, the loader and the predictor *)


(** X13.  [load_model] on a name that is not registered - [None]
    included - raises [ValueError] naming it and touches nothing; on a
    registered name it asks the runtime for the interpreter of the
    registered path, once, and raises what the runtime raises. *)
Theorem load_model_resolves_or_raises name w :
  if opt_contains MODEL_PATHS name then
    exists model_path,
      opt_get MODEL_PATHS name = Some model_path /\
      In model_path (map snd MODEL_PATHS) /\
      load_model R name w =
        (match Interpreter R model_path with
         | Some interpreter => Returned interpreter
         | None => Raised (InterpreterError model_path)
         end, mkWorld (fs w) (log w ++ [EvLoad model_path]))
  else
    load_model R name w =
      (Raised (ValueError ("Model '" ++ py_str name ++ "' not found.")), w).
Proof.
  destruct (opt_contains MODEL_PATHS name) eqn:Hreg.
  - destruct name as [name|]; cbn [opt_contains] in Hreg; [|discriminate].
    destruct (dict_contains_get MODEL_PATHS name Hreg) as (model_path & Hget).
    exists model_path. split; [exact Hget|]. split.
    + clear Hreg. revert Hget. generalize MODEL_PATHS.
      induction l as [|[k v] l IH]; simpl; [discriminate|].
      destruct (String.eqb k name); [intros H; injection H as ->; left; reflexivity|].
      intros H. right. apply IH. exact H.
    + unfold load_model. cbn [opt_get]. rewrite Hget. unfold bind, emit.
      destruct (Interpreter R model_path); reflexivity.
  - unfold load_model. destruct name as [name|]; cbn [opt_contains opt_get] in *.
    + rewrite (dict_get_missing MODEL_PATHS name Hreg). reflexivity.
    + reflexivity.
Qed.

(** X14.  [model_predict] never raises and never changes the world.  When
    the file is missing or does not decode it answers [None] and the
    interpreter has not been touched; when the file is there, the answer
    and the next interpreter state are those of preprocessing and invoking
    on its content. *)
Theorem model_predict_never_raises img_path it w :
  exists preds it',
    model_predict R img_path it w = (Returned (preds, it'), w) /\
    (fs w !! img_path = None -> preds = None /\ it' = it) /\
    (forall content, fs w !! img_path = Some content ->
       (preprocess R content = None -> preds = None /\ it' = it) /\
       (preds, it') = predict_bytes R it content).
Proof.
  unfold model_predict, predict_bytes.
  destruct (fs w !! img_path) as [content|].
  - destruct (preprocess R content) as [x|] eqn:Hpre.
    + destruct (invoke R it x) as [it' preds] eqn:Hinv.
      exists preds, it'. split; [reflexivity|]. split; [discriminate|].
      intros c Hc. injection Hc as <-. rewrite Hpre, Hinv. split; [discriminate|reflexivity].
    + exists None, it. split; [reflexivity|]. split; [discriminate|].
      intros c Hc. injection Hc as <-. rewrite Hpre. auto.
  - exists None, it. split; [reflexivity|]. split; [auto|]. intros c Hc. discriminate.
Qed.

(** X15.  As long as sanitizing yields relative names, the temporary path
    is the upload folder, a slash and the sanitized name, so two uploads
    share their temporary path exactly when their sanitized names are
    equal. *)
Theorem temp_paths_collide_on_sanitized_names f g :
  starts_with_slash (secure_filename R (filename f)) = false ->
  starts_with_slash (secure_filename R (filename g)) = false ->
  temp_path R f = (UPLOAD_FOLDER R ++ "/" ++ secure_filename R (filename f))%string /\
  (temp_path R f = temp_path R g <->
   secure_filename R (filename f) = secure_filename R (filename g)).
Proof.
  intros Hf Hg. rewrite (temp_path_relative f Hf), (temp_path_relative g Hg).
  split; [reflexivity|]. split.
  - intros H. apply append_cancel in H. apply (append_cancel "/") in H. exact H.
  - intros ->. reflexivity.
Qed.

End Coverage.

(** ** The further properties at work on concrete requests *)

Lemma missing_files_field_rejected_witness :
  dict_contains (req_files no_files_field) "files" = false /\
  upload toy no_files_field busy_world =
    (Returned (mkResponse (JObject [("error", JString "No file part.")]) 400), busy_world).
Proof.
  split; [reflexivity|].
  apply (missing_files_field_rejected toy no_files_field busy_world). reflexivity.
Defined.

Lemma storage_after_response_witness :
  fs stale_world !! "/srv/app/uploads/a.png" = Some scores_b /\
  fst (upload toy one_file stale_world) = Returned one_file_response /\
  forall p,
    fs (snd (upload toy one_file stale_world)) !! p =
      if passes_validation one_file
         && existsb (fun f => String.eqb (temp_path toy f) p) (processed (uploads one_file))
      then None else fs stale_world !! p.
Proof.
  split; [reflexivity|]. split; [reflexivity|].
  apply (storage_after_response toy one_file stale_world one_file_response
           (snd (upload toy one_file stale_world))).
  reflexivity.
Defined.

Lemma exceptions_leaving_upload_witness :
  fst (upload toy_no_models one_file empty_world) =
    Raised (InterpreterError "models/MobileNetV2.tflite") /\
  ((exists model_path, selected_path one_file = Some model_path /\
      Interpreter toy_no_models model_path = None /\
      InterpreterError "models/MobileNetV2.tflite" = InterpreterError model_path) \/
   (exists f, In f (processed (uploads one_file)) /\
      writable toy_no_models (temp_path toy_no_models f) = false /\
      InterpreterError "models/MobileNetV2.tflite" =
        OSError (temp_path toy_no_models f)) \/
   InterpreterError "models/MobileNetV2.tflite" =
     ValueError "attempt to get argmax of an empty sequence" \/
   InterpreterError "models/MobileNetV2.tflite" =
     IndexError "index 0 is out of bounds for axis 0 with size 0").
Proof.
  split; [reflexivity|].
  apply (exceptions_leaving_upload toy_no_models one_file empty_world
           (InterpreterError "models/MobileNetV2.tflite")
           (snd (upload toy_no_models one_file empty_world))).
  reflexivity.
Defined.

Lemma raise_at_line_99_leaves_the_upload_witness :
  fst (upload toy_no_columns one_file empty_world) =
    Raised (ValueError "attempt to get argmax of an empty sequence") /\
  exists f evs,
    In f (processed (uploads one_file)) /\
    fs (snd (upload toy_no_columns one_file empty_world)) !! temp_path toy_no_columns f =
      Some (stream f) /\
    log (snd (upload toy_no_columns one_file empty_world)) =
      log empty_world ++ evs ++ [EvSave (temp_path toy_no_columns f)].
Proof.
  split; [reflexivity|].
  apply (raise_at_line_99_leaves_the_upload toy_no_columns one_file empty_world
           (ValueError "attempt to get argmax of an empty sequence")
           (snd (upload toy_no_columns one_file empty_world))).
  - reflexivity.
  - left. reflexivity.
Defined.

Lemma at_most_six_entries_witness :
  fst (upload toy seven_files empty_world) = Returned seven_files_response /\
  exists results,
    seven_files_response = mkResponse (JObject [("results", JArray results)]) 200 /\
    length results = length (processed (uploads seven_files)) /\
    (length results <= 6)%nat /\
    (length results <= length (uploads seven_files))%nat.
Proof.
  split; [reflexivity|].
  apply (at_most_six_entries toy seven_files empty_world seven_files_response
           (snd (upload toy seven_files empty_world))).
  - reflexivity.
  - reflexivity.
Defined.

Lemma entries_are_labels_or_failures_witness :
  fst (upload toy three_files busy_world) = Returned three_files_response /\
  exists results,
    three_files_response = mkResponse (JObject [("results", JArray results)]) 200 /\
    Forall (fun e => exists f,
              In f (firstn 6 (uploads three_files)) /\ filename f <> "" /\
              (e = JObject [("filename", JString (filename f));
                            ("error", JString "Prediction failed.")] \/
               exists label,
                 (In label class_labels \/ label = "Prediction index out of range.") /\
                 e = JObject [("filename", JString (filename f));
                              ("predicted_class", JString label)])) results.
Proof.
  split; [reflexivity|].
  apply (entries_are_labels_or_failures toy three_files busy_world three_files_response
           three_files_world).
  - reflexivity.
  - reflexivity.
Defined.

Lemma unnamed_first_six_gives_empty_results_witness :
  passes_validation named_seventh = true /\
  forallb (fun f => String.eqb (filename f) "") (firstn 6 (uploads named_seventh)) = true /\
  upload toy named_seventh busy_world =
    (Returned (mkResponse (JObject [("results", JArray [])]) 200),
     mkWorld (fs busy_world) (log busy_world ++ [EvLoad "models/MobileNetV2.tflite"])).
Proof.
  split; [reflexivity|]. split; [reflexivity|].
  apply (unnamed_first_six_gives_empty_results toy named_seventh busy_world
           "models/MobileNetV2.tflite" 0%nat); reflexivity.
Defined.

Lemma narrow_output_always_labelled_witness :
  shape_ok toy (Batch [1; 9; 3; 2]%Z []) = true /\
  exists label, In label class_labels /\
    interpret toy (Batch [1; 9; 3; 2]%Z []) = Returned label.
Proof.
  split; [reflexivity|].
  apply (narrow_output_always_labelled toy [1; 9; 3; 2]%Z []).
  - reflexivity.
  - simpl. lia.
Defined.

Lemma temp_paths_collide_on_sanitized_names_witness :
  temp_path toy (mkFile "a.png" scores_a) = "/srv/app/uploads/a.png" /\
  (temp_path toy (mkFile "a.png" scores_a) = temp_path toy (mkFile "a.png" scores_b) <->
   secure_filename toy "a.png" = secure_filename toy "a.png").
Proof.
  apply (temp_paths_collide_on_sanitized_names toy (mkFile "a.png" scores_a)
           (mkFile "a.png" scores_b)); reflexivity.
Defined.
